(** * Publications service: status workflow and authors-service client

    A shallow embedding of the TypeScript sources of the publications
    service:

    - [entity/Publication.ts]           (module [Publication])
    - [util/StateValidators.ts]         (module [StateValidators])
    - [repository/PublicationRepository.ts] (module [PublicationRepository])
    - [client/AuthorsServiceClient.ts]  (module [AuthorsServiceClient])
    - [service/PublicationService.ts]   (module [PublicationService])
    - [controller/PublicationController.ts], [handleError] only
      (module [PublicationController])
    - the column types of the entity, as the database applies them
      (module [Postgres])

    Asynchronous methods are written in a state-and-exception monad over a
    [World] that holds the publications table, the database clock and uuid
    generator, the replies of the remote authors service and the trace of
    requests and timers. *)

From Stdlib Require Import ZArith List String Ascii Bool Lia Permutation.
From stdpp Require Import base decidable option gmap strings.
From Equations Require Import Equations.
Import ListNotations.

Local Open Scope string_scope.
Local Open Scope Z_scope.

(** ** JavaScript values used by the sources *)

Module JS.

(** A JavaScript string is a sequence of UTF-16 code units.  Here a
    [string] is read as a sequence of code units below 256, one per
    [ascii]. *)

(** ECMAScript [WhiteSpace] and [LineTerminator] code points that fit in
    one code unit below 256: TAB, LF, VT, FF, CR, SP, NBSP. *)
Definition isWhiteSpace (c : ascii) : bool :=
  let n := N_of_ascii c in
  (((9 <=? n) && (n <=? 13)) || (n =? 32) || (n =? 160))%N.

(** [String.prototype.trimStart] *)
Fixpoint trimStart (s : string) : string :=
  match s with
  | EmptyString => EmptyString
  | String c r => if isWhiteSpace c then trimStart r else s
  end.

(** [String.prototype.trimEnd] *)
Fixpoint trimEnd (s : string) : string :=
  match s with
  | EmptyString => EmptyString
  | String c r =>
      match trimEnd r with
      | EmptyString => if isWhiteSpace c then EmptyString else String c EmptyString
      | r' => String c r'
      end
  end.

(** [String.prototype.trim] *)
Definition trim (s : string) : string := trimEnd (trimStart s).

(** [s.length] *)
Definition length (s : string) : Z := Z.of_nat (String.length s).

(** [ToBoolean] on a string: only the empty string is falsy. *)
Definition truthy (s : string) : bool :=
  match s with EmptyString => false | String _ _ => true end.

(** [ToBoolean] on a value of type [string | undefined | null]. *)
Definition truthy_opt (o : option string) : bool :=
  match o with None => false | Some s => truthy s end.

(** [hay.includes(needle)] *)
Fixpoint includes (hay needle : string) : bool :=
  String.prefix needle hay ||
  match hay with
  | EmptyString => false
  | String _ r => includes r needle
  end.

(** [throw new Error(message)] carries only its message. *)
Record Error := mkError { message : string }.

(** Outcome of a synchronous call that may throw. *)
Inductive result (A : Type) : Type :=
| Return (a : A)
| Throw (e : Error).
Arguments Return {A} a.
Arguments Throw {A} e.

End JS.

Export JS (Error, mkError, message, result, Return, Throw).

(** ** entity/Publication.ts *)

Inductive PublicationStatus : Set :=
| DRAFT
| IN_REVIEW
| APPROVED
| PUBLISHED
| REJECTED.

#[global] Instance PublicationStatus_eq_dec : EqDecision PublicationStatus.
Proof. solve_decision. Defined.

(** The string value of each enum member, as used in template literals. *)
Definition status_value (s : PublicationStatus) : string :=
  match s with
  | DRAFT => "DRAFT"
  | IN_REVIEW => "IN_REVIEW"
  | APPROVED => "APPROVED"
  | PUBLISHED => "PUBLISHED"
  | REJECTED => "REJECTED"
  end.

Module Publication.

(** Columns of [BaseWork] followed by those of [Publication].  Nullable
    columns are options; timestamps are milliseconds. *)
Record t := mk {
  id : string;
  title : string;
  content : string;
  status : PublicationStatus;
  createdAt : Z;
  updatedAt : Z;
  authorId : string;
  authorName : option string;
  authorEmail : option string;
  abstract_text : option string;
  keywords : option (list string);
  reviewCount : Z;
  reviewNotes : option string;
  isVisible : bool
}.

Definition set_reviewCount (n : Z) (p : t) : t :=
  mk (id p) (title p) (content p) (status p) (createdAt p) (updatedAt p)
     (authorId p) (authorName p) (authorEmail p) (abstract_text p)
     (keywords p) n (reviewNotes p) (isVisible p).

Definition canBeEdited (this : t) : bool :=
  bool_decide (status this = DRAFT) || bool_decide (status this = IN_REVIEW).

Definition getWorkType (this : t) : string := "ACADEMIC_PUBLICATION".

(** The object literal [validTransitions], as a total lookup. *)
Definition validTransitions (from : PublicationStatus) : list PublicationStatus :=
  match from with
  | DRAFT => [IN_REVIEW; REJECTED]
  | IN_REVIEW => [APPROVED; REJECTED; DRAFT]
  | APPROVED => [PUBLISHED]
  | PUBLISHED => []
  | REJECTED => [DRAFT]
  end.

(** [Array.prototype.includes] on statuses. *)
Definition includes (l : list PublicationStatus) (x : PublicationStatus) : bool :=
  existsb (fun y => bool_decide (y = x)) l.

Definition canTransitionToStatus (this : t) (newStatus : PublicationStatus) : bool :=
  includes (validTransitions (status this)) newStatus.

End Publication.

(** [Partial<Publication>]: every property may be absent.  The generated
    columns [id], [createdAt] and [updatedAt] are left out: no caller in
    this code base supplies them. *)
Module Partial.

Record t := mk {
  title : option string;
  content : option string;
  status : option PublicationStatus;
  authorId : option string;
  authorName : option string;
  authorEmail : option string;
  abstract_text : option string;
  keywords : option (list string);
  reviewCount : option Z;
  reviewNotes : option string;
  isVisible : option bool
}.

(** [{}] *)
Definition empty : t :=
  mk None None None None None None None None None None None.

Definition set_status (s : PublicationStatus) (d : t) : t :=
  mk (title d) (content d) (Some s) (authorId d) (authorName d)
     (authorEmail d) (abstract_text d) (keywords d) (reviewCount d)
     (reviewNotes d) (isVisible d).

Definition set_reviewNotes (n : string) (d : t) : t :=
  mk (title d) (content d) (status d) (authorId d) (authorName d)
     (authorEmail d) (abstract_text d) (keywords d) (reviewCount d)
     (Some n) (isVisible d).

Definition set_author (name email : string) (d : t) : t :=
  mk (title d) (content d) (status d) (authorId d) (Some name)
     (Some email) (abstract_text d) (keywords d) (reviewCount d)
     (reviewNotes d) (isVisible d).

End Partial.

(** ** util/StateValidators.ts *)

Module StateValidators.

(** [interface StateValidator]: [validate] returns normally or throws. *)
Definition StateValidator : Type :=
  Publication.t -> PublicationStatus -> result unit.

(** [!s || s.trim().length === 0] *)
Definition blank (s : string) : bool :=
  negb (JS.truthy s) || (JS.length (JS.trim s) =? 0).

Definition blank_opt (o : option string) : bool :=
  match o with
  | None => true
  | Some s => blank s
  end.

Definition ToReviewValidator : StateValidator := fun publication newStatus =>
  if negb (bool_decide (newStatus = IN_REVIEW)) then Return tt
  else if blank (Publication.title publication) then
    Throw (mkError "Title is required for review")
  else if blank (Publication.content publication) then
    Throw (mkError "Content is required for review")
  else if negb (bool_decide (Publication.status publication = DRAFT))
          && negb (bool_decide (Publication.status publication = REJECTED)) then
    Throw (mkError "Only DRAFT or REJECTED publications can go to REVIEW")
  else Return tt.

Definition ToApprovedValidator : StateValidator := fun publication newStatus =>
  if negb (bool_decide (newStatus = APPROVED)) then Return tt
  else if negb (bool_decide (Publication.status publication = IN_REVIEW)) then
    Throw (mkError "Only IN_REVIEW publications can be APPROVED")
  else if blank_opt (Publication.reviewNotes publication) then
    Throw (mkError "Review notes are required for approval")
  else Return tt.

Definition ToPublishedValidator : StateValidator := fun publication newStatus =>
  if negb (bool_decide (newStatus = PUBLISHED)) then Return tt
  else if negb (bool_decide (Publication.status publication = APPROVED)) then
    Throw (mkError "Only APPROVED publications can be PUBLISHED")
  else Return tt.

Definition ToRejectedValidator : StateValidator := fun publication newStatus =>
  if negb (bool_decide (newStatus = REJECTED)) then Return tt
  else if bool_decide (Publication.status publication = PUBLISHED) then
    Throw (mkError "Published publications cannot be REJECTED")
  else if blank_opt (Publication.reviewNotes publication) then
    Throw (mkError "Review notes are required for rejection")
  else Return tt.

(** The list built by the constructor of [StateValidationFacade]. *)
Definition validators : list StateValidator :=
  [ToReviewValidator; ToApprovedValidator; ToPublishedValidator; ToRejectedValidator].

(** The [for ... of] loop of [validateTransition] over a validator list:
    the first validator that throws ends the loop. *)
Fixpoint runValidators (vs : list StateValidator)
         (publication : Publication.t) (newStatus : PublicationStatus) : result unit :=
  match vs with
  | [] => Return tt
  | validator :: rest =>
      match validator publication newStatus with
      | Return _ => runValidators rest publication newStatus
      | Throw e => Throw e
      end
  end.

Definition validateTransition (publication : Publication.t)
           (newStatus : PublicationStatus) : result unit :=
  runValidators validators publication newStatus.

End StateValidators.

(** ** The world the asynchronous methods run in *)

Module AuthorData.

(** [interface AuthorData] *)
Record t := mk {
  id : string;
  firstName : string;
  lastName : string;
  email : string;
  specialization : option string
}.

End AuthorData.

(** What the authors service answers to one request: an HTTP status with
    the [data] property of its JSON body when there is one, or nothing at
    all (time-out, connection refused). *)
Inductive Reply : Type :=
| HttpReply (status : Z) (body : option AuthorData.t)
| NoReply.

(** Observable network and timer activity, oldest first. *)
Inductive Event : Type :=
| Get (url : string)
| SetTimeout (ms : Z).

Record World := mkWorld {
  rows : gmap string Publication.t;     (* table [publications], by primary key *)
  uuid_gen : nat -> string;             (* uuids the database hands out *)
  inserted : nat;                       (* how many of them are used *)
  clock : Z;                            (* current time, milliseconds *)
  remote : nat -> string -> Reply;      (* reply to the k-th request, by url *)
  trace : list Event
}.

Definition set_rows (r : gmap string Publication.t) (w : World) : World :=
  mkWorld r (uuid_gen w) (inserted w) (clock w) (remote w) (trace w).

Definition set_inserted (n : nat) (w : World) : World :=
  mkWorld (rows w) (uuid_gen w) n (clock w) (remote w) (trace w).

Definition set_clock (c : Z) (w : World) : World :=
  mkWorld (rows w) (uuid_gen w) (inserted w) c (remote w) (trace w).

Definition log (e : Event) (w : World) : World :=
  mkWorld (rows w) (uuid_gen w) (inserted w) (clock w) (remote w) (trace w ++ [e]).

Definition is_get (e : Event) : bool :=
  match e with Get _ => true | SetTimeout _ => false end.

(** Number of requests sent so far. *)
Definition requests (w : World) : nat := List.length (List.filter is_get (trace w)).

(** [Promise<A>] awaited to completion: a state transformer that returns
    or throws. *)
Definition M (A : Type) : Type := World -> result A * World.

Definition ret {A} (a : A) : M A := fun w => (Return a, w).

Definition throw {A} (e : Error) : M A := fun w => (Throw e, w).

Definition bind {A B} (m : M A) (k : A -> M B) : M B := fun w =>
  match m w with
  | (Return a, w') => k a w'
  | (Throw e, w') => (Throw e, w')
  end.

(** [try { m } catch (error) { h error }] *)
Definition try_catch {A} (m : M A) (h : Error -> M A) : M A := fun w =>
  match m w with
  | (Return a, w') => (Return a, w')
  | (Throw e, w') => h e w'
  end.

(** A synchronous call inside an asynchronous method. *)
Definition lift {A} (r : result A) : M A := fun w => (r, w).

Notation "x <- m ;; k" := (bind m (fun x => k))
  (at level 100, m at next level, right associativity).

(** ** What the column types of the entity accept and store

    [config/database.ts] connects the repository to PostgreSQL; the entity
    declares [id] and [authorId] as [uuid], [title], [authorName] and
    [authorEmail] as [varchar(255)] and [keywords] as [simple-array]. *)

Module Postgres.

(** [isxdigit] in the C locale. *)
Definition is_hex (c : ascii) : bool :=
  let n := N_of_ascii c in
  (((48 <=? n) && (n <=? 57)) || ((65 <=? n) && (n <=? 70))
   || ((97 <=? n) && (n <=? 102)))%N.

(** The input routine of the [uuid] type reads sixteen bytes of two
    hexadecimal digits each, with an optional hyphen after every second
    byte but the last; [uuid_bytes] returns what is left of the text. *)
Fixpoint uuid_bytes (remaining i : nat) (src : string) : option string :=
  match remaining with
  | O => Some src
  | S remaining' =>
      match src with
      | String a (String b rest) =>
          if is_hex a && is_hex b
          then
            uuid_bytes remaining' (S i)
              (match rest with
               | String "-"%char rest' =>
                   if Nat.odd i && (i <? 15)%nat then rest' else rest
               | _ => rest
               end)
          else None
      | _ => None
      end
  end.

(** The text is accepted as a [uuid]: the sixteen bytes, optionally in
    braces, and nothing else. *)
Definition uuid_ok (source : string) : bool :=
  match source with
  | String "{"%char src =>
      match uuid_bytes 16 0 src with
      | Some rest => String.eqb rest "}"
      | None => false
      end
  | _ =>
      match uuid_bytes 16 0 source with
      | Some rest => String.eqb rest EmptyString
      | None => false
      end
  end.

Definition lower_hex (c : ascii) : ascii :=
  let n := N_of_ascii c in
  if ((65 <=? n) && (n <=? 70))%N then ascii_of_N (n + 32) else c.

(** The text a stored [uuid] is read back as: its thirty-two digits in
    lower case, in groups of 8, 4, 4, 4 and 12. *)
Definition uuid_out (source : string) : string :=
  let digits :=
    List.map lower_hex (List.filter is_hex (list_ascii_of_string source)) in
  string_of_list_ascii (firstn 8 digits) +:+ "-"
  +:+ string_of_list_ascii (firstn 4 (skipn 8 digits)) +:+ "-"
  +:+ string_of_list_ascii (firstn 4 (skipn 12 digits)) +:+ "-"
  +:+ string_of_list_ascii (firstn 4 (skipn 16 digits)) +:+ "-"
  +:+ string_of_list_ascii (firstn 12 (skipn 20 digits)).

(** The first [n] characters of a value, and the characters beyond
    them. *)
Fixpoint keep (n : nat) (value : string) : string :=
  match n, value with
  | S n', String c rest => String c (keep n' rest)
  | _, _ => EmptyString
  end.

Fixpoint excess (n : nat) (value : string) : string :=
  match n, value with
  | S n', String _ rest => excess n' rest
  | _, _ => value
  end.

Fixpoint all_spaces (value : string) : bool :=
  match value with
  | EmptyString => true
  | String c rest => Ascii.eqb c " "%char && all_spaces rest
  end.

(** A [varchar(n)] column refuses a value of more than [n] characters,
    unless the excess characters are all spaces; it then stores the first
    [n] characters. *)
Definition varchar_ok (n : nat) (value : string) : bool :=
  all_spaces (excess n value).

Definition varchar_in (n : nat) (value : string) : string := keep n value.

Definition varchar_ok_opt (n : nat) (value : option string) : bool :=
  match value with
  | Some v => varchar_ok n v
  | None => true
  end.

(** TypeORM writes a [simple-array] column as its elements joined by
    commas and reads it back by splitting at every comma; the empty text
    is read back as the empty array. *)
Fixpoint join (values : list string) : string :=
  match values with
  | [] => EmptyString
  | [value] => value
  | value :: rest => value +:+ "," +:+ join rest
  end.

Fixpoint split (text : string) : list string :=
  match text with
  | EmptyString => [EmptyString]
  | String c rest =>
      if Ascii.eqb c ","%char then EmptyString :: split rest
      else
        match split rest with
        | first :: others => String c first :: others
        | [] => [String c EmptyString]
        end
  end.

Definition simple_array_out (values : list string) : list string :=
  match join values with
  | EmptyString => []
  | text => split text
  end.

(** The double quote, for the messages that quote a value. *)
Definition dquote : string := String (ascii_of_nat 34) EmptyString.

(** The errors the database raises, as [QueryFailedError] carries them. *)
Definition invalid_uuid (value : string) : Error :=
  mkError ("invalid input syntax for type uuid: " +:+ dquote +:+ value +:+ dquote).

Definition value_too_long : Error :=
  mkError "value too long for type character varying(255)".

(** The values supplied for the [varchar(255)] and [uuid] columns of
    [publications] are accepted. *)
Definition columns_ok (data : Partial.t) : bool :=
  varchar_ok_opt 255 (Partial.title data)
  && varchar_ok_opt 255 (Partial.authorName data)
  && varchar_ok_opt 255 (Partial.authorEmail data)
  && match Partial.authorId data with
     | Some authorId => uuid_ok authorId
     | None => true
     end.

(** The error for values that are not accepted: the [uuid] is converted
    when the statement is bound, the lengths are checked when the row is
    written. *)
Definition column_error (data : Partial.t) : Error :=
  match Partial.authorId data with
  | Some authorId => if uuid_ok authorId then value_too_long else invalid_uuid authorId
  | None => value_too_long
  end.

End Postgres.

(** ** repository/PublicationRepository.ts *)

Module PublicationRepository.

(** TypeORM [Repository.update(id, data)]: one UPDATE statement that sets
    the supplied columns of the row with that primary key and refreshes
    its [UpdateDateColumn]; it touches nothing when there is no such
    row.  The generated columns [id], [createdAt] and [updatedAt] are
    never supplied by this code base.  [apply] is the row as it is read
    back: a [uuid] in its output form, a [simple-array] split at its
    commas, a [varchar] cut to its length. *)
Definition apply (data : Partial.t) (now : Z) (p : Publication.t) : Publication.t :=
  Publication.mk
    (Publication.id p)
    (match Partial.title data with
     | Some x => Postgres.varchar_in 255 x
     | None => Publication.title p
     end)
    (default (Publication.content p) (Partial.content data))
    (default (Publication.status p) (Partial.status data))
    (Publication.createdAt p)
    now
    (match Partial.authorId data with
     | Some x => Postgres.uuid_out x
     | None => Publication.authorId p
     end)
    (match Partial.authorName data with
     | Some x => Some (Postgres.varchar_in 255 x)
     | None => Publication.authorName p
     end)
    (match Partial.authorEmail data with
     | Some x => Some (Postgres.varchar_in 255 x)
     | None => Publication.authorEmail p
     end)
    (match Partial.abstract_text data with Some x => Some x | None => Publication.abstract_text p end)
    (match Partial.keywords data with
     | Some x => Some (Postgres.simple_array_out x)
     | None => Publication.keywords p
     end)
    (default (Publication.reviewCount p) (Partial.reviewCount data))
    (match Partial.reviewNotes data with Some x => Some x | None => Publication.reviewNotes p end)
    (default (Publication.isVisible p) (Partial.isVisible data)).

(** [WHERE id = $1] on the [uuid] primary key.  The column compares uuid
    values, so an id reaches the row stored under it as it is written or,
    failing that, under its output form; [row_key] is the key of that
    row.  An id that is stored under no key and is not a uuid makes the
    statement fail. *)
Definition row_key (id : string) (w : World) : string :=
  match rows w !! id with
  | Some _ => id
  | None => Postgres.uuid_out id
  end.

Definition id_ok (id : string) (w : World) : bool :=
  match rows w !! id with
  | Some _ => true
  | None => Postgres.uuid_ok id
  end.

(** The statement fails, and writes nothing, when the id is not accepted
    and when a supplied value does not fit its column. *)
Definition repository_update (id : string) (data : Partial.t) : M unit := fun w =>
  if id_ok id w
  then
    match rows w !! row_key id w with
    | Some _ =>
        if Postgres.columns_ok data
        then (Return tt,
              set_rows (alter (apply data (clock w)) (row_key id w) (rows w)) w)
        else (Throw (Postgres.column_error data), w)
    | None => (Return tt, w)
    end
  else (Throw (Postgres.invalid_uuid id), w).

(** TypeORM [Repository.save] of a new entity: one INSERT.  The database
    generates the uuid and both timestamps and fills the column
    defaults ([reviewCount] 0, [isVisible] true).  The statement fails,
    and writes nothing, when a non-nullable column has no value and when
    a value does not fit its column.  [saved_entity] is the entity that
    [save] returns, with the properties it was given; [stored_row] is the
    row as it is read back later. *)
Definition saved_entity (publication : Partial.t) (id : string) (now : Z)
           (title content : string) (status : PublicationStatus) (authorId : string)
  : Publication.t :=
  Publication.mk id title content status now now authorId
    (Partial.authorName publication) (Partial.authorEmail publication)
    (Partial.abstract_text publication) (Partial.keywords publication)
    (default 0 (Partial.reviewCount publication))
    (Partial.reviewNotes publication)
    (default true (Partial.isVisible publication)).

Definition stored_row (entity : Publication.t) : Publication.t :=
  Publication.mk (Publication.id entity)
    (Postgres.varchar_in 255 (Publication.title entity))
    (Publication.content entity) (Publication.status entity)
    (Publication.createdAt entity) (Publication.updatedAt entity)
    (Postgres.uuid_out (Publication.authorId entity))
    (Postgres.varchar_in 255 <$> Publication.authorName entity)
    (Postgres.varchar_in 255 <$> Publication.authorEmail entity)
    (Publication.abstract_text entity)
    (match Publication.keywords entity with
     | Some values => Some (Postgres.simple_array_out values)
     | None => None
     end)
    (Publication.reviewCount entity) (Publication.reviewNotes entity)
    (Publication.isVisible entity).

Definition repository_save (publication : Partial.t) : M Publication.t := fun w =>
  match Partial.title publication, Partial.content publication,
        Partial.status publication, Partial.authorId publication with
  | Some title, Some content, Some status, Some authorId =>
      if Postgres.columns_ok publication
      then
        let entity :=
          saved_entity publication (uuid_gen w (inserted w)) (clock w)
                       title content status authorId in
        (Return entity,
         set_inserted (S (inserted w))
           (set_rows (<[Publication.id entity := stored_row entity]> (rows w)) w))
      else (Throw (Postgres.column_error publication), w)
  | _, _, _, _ =>
      (Throw (mkError "null value in column violates not-null constraint"), w)
  end.

Definition create (publication : Partial.t) : M Publication.t :=
  repository_save publication.

(** [findOneBy({ id })] builds a fresh entity from the row the id
    reaches, and gives [null] when it reaches none. *)
Definition findById (id : string) : M (option Publication.t) := fun w =>
  if id_ok id w then (Return (rows w !! row_key id w), w)
  else (Throw (Postgres.invalid_uuid id), w).

Definition update (id : string) (data : Partial.t) : M (option Publication.t) :=
  _ <- repository_update id data ;;
  findById id.

(** The object [updateData] that [updateStatus] hands to [update]. *)
Definition updateData (status : PublicationStatus) (reviewNotes : option string)
  : Partial.t :=
  let updateData := Partial.set_status status Partial.empty in
  match reviewNotes with
  | Some notes =>
      if JS.truthy notes then Partial.set_reviewNotes notes updateData
      else updateData
  | None => updateData
  end.

Definition updateStatus (id : string) (status : PublicationStatus)
           (reviewNotes : option string) : M (option Publication.t) :=
  update id (updateData status reviewNotes).

(** TypeORM [Repository.delete(id)]: one DELETE statement; [affected] is
    the number of rows it removed. *)
Definition repository_delete (id : string) : M (option Z) := fun w =>
  if id_ok id w
  then
    match rows w !! row_key id w with
    | Some _ => (Return (Some 1), set_rows (base.delete (row_key id w) (rows w)) w)
    | None => (Return (Some 0), w)
    end
  else (Throw (Postgres.invalid_uuid id), w).

Definition delete (id : string) : M bool :=
  affected <- repository_delete id ;;
  ret (default 0 affected >? 0).

(** TypeORM [Repository.countBy(where)]: the number of rows that satisfy
    the condition. *)
Definition repository_countBy (where_ : Publication.t -> bool) : M Z := fun w =>
  (Return (Z.of_nat
             (size (filter (fun kv : string * Publication.t => where_ kv.2 = true)
                           (rows w)))),
   w).

Definition countByStatus (status : PublicationStatus) : M Z :=
  repository_countBy (fun p => bool_decide (Publication.status p = status)).

End PublicationRepository.

(** ** client/AuthorsServiceClient.ts *)

Module AuthorsServiceClient.

(** The fields the constructor sets.  [baseURL] and [timeout] come from
    the process environment. *)
Record t := mk {
  baseURL : string;
  timeout : Z;
  maxRetries : nat
}.

Definition constructor (env_AUTHORS_SERVICE_URL : option string) (timeout : Z) : t :=
  mk (match env_AUTHORS_SERVICE_URL with
      | Some url => if JS.truthy url then url else "http://authors-service:3001"
      | None => "http://authors-service:3001"
      end)
     timeout
     3.

(** What [axios] resolves with: the HTTP status and [response.data.data]. *)
Record AxiosResponse := mkResponse {
  status : Z;
  data : option AuthorData.t
}.

(** [axiosInstance.get(path)]: the request is sent, and the promise
    resolves on a 2xx status and rejects on any other status and when no
    reply arrives within the time-out. *)
Definition get (this : t) (path : string) : M AxiosResponse := fun w =>
  let url := baseURL this +:+ path in
  let w' := log (Get url) w in
  match remote w (requests w) url with
  | HttpReply code body =>
      if (200 <=? code) && (code <? 300)
      then (Return (mkResponse code body), w')
      else (Throw (mkError "Request failed"), w')
  | NoReply => (Throw (mkError "Network Error"), w')
  end.

(** [await new Promise((resolve) => setTimeout(resolve, delay))] *)
Definition sleep (delay : Z) : M unit := fun w =>
  (Return tt, set_clock (clock w + delay) (log (SetTimeout delay) w)).

(** [Math.pow(2, attempt) * 1000] *)
Definition backoff (attempt : nat) : Z := 2 ^ Z.of_nat attempt * 1000.

Equations retryRequest {T : Type} (this : t) (requestFn : M T)
          (attempt : nat) (w : World) : result T * World
  by wf (maxRetries this - attempt)%nat lt :=
  retryRequest this requestFn attempt w with requestFn w := {
    | (Return r, w1) => (Return r, w1)
    | (Throw error, w1) with lt_dec attempt (maxRetries this) := {
      | left _ =>
          let delay := backoff attempt in
          retryRequest this requestFn (attempt + 1)%nat (snd (sleep delay w1))
      | right _ => (Throw error, w1) } }.
Next Obligation. lia. Qed.

Definition authorExists (this : t) (authorId : string) : M bool :=
  try_catch
    (response <- retryRequest this (get this ("/authors/" +:+ authorId)) 1%nat ;;
     ret (status response =? 200))
    (fun error => ret false).

Definition getAuthor (this : t) (authorId : string) : M (option AuthorData.t) :=
  try_catch
    (response <- retryRequest this (get this ("/authors/" +:+ authorId)) 1%nat ;;
     ret (data response))
    (fun error => ret None).

(** [axios.get(`${this.baseURL}/health`, { timeout: 3000 })]: one request
    to the same remote, outside [retryRequest]. *)
Definition healthCheck (this : t) : M bool :=
  try_catch
    (response <- get this "/health" ;;
     ret (status response =? 200))
    (fun error => ret false).

End AuthorsServiceClient.

(** ** dto/PublicationDTO.ts and util/PublicationMapper.ts *)

Module CreatePublicationDTO.
Record t := mk {
  title : string;
  content : string;
  abstract_text : option string;
  authorId : string;
  keywords : option (list string)
}.
End CreatePublicationDTO.

Module ChangePublicationStatusDTO.
Record t := mk {
  status : PublicationStatus;
  reviewNotes : option string
}.
End ChangePublicationStatusDTO.

Module PublicationResponseDTO.
Record t := mk {
  id : string;
  title : string;
  content : string;
  status : PublicationStatus;
  authorId : string;
  authorName : option string;
  authorEmail : option string;
  abstract_text : option string;
  keywords : list string;
  reviewCount : Z;
  reviewNotes : option string;
  isVisible : bool;
  createdAt : Z;
  updatedAt : Z
}.
End PublicationResponseDTO.

(** [UpdatePublicationDTO]: every property is optional. *)
Module UpdatePublicationDTO.
Record t := mk {
  title : option string;
  content : option string;
  abstract_text : option string;
  keywords : option (list string);
  reviewNotes : option string
}.

(** The DTO read as the [Partial<Publication>] that [update] receives:
    the properties the DTO type declares. *)
Definition asPartial (dto : t) : Partial.t :=
  Partial.mk (title dto) (content dto) None None None None
             (abstract_text dto) (keywords dto) None (reviewNotes dto) None.
End UpdatePublicationDTO.

(** [PublicationWithAuthorDTO]: the response DTO with an optional [author]
    property.  The union [PublicationResponseDTO | PublicationWithAuthorDTO]
    is this record, with no author for the first alternative. *)
Module PublicationWithAuthorDTO.
Record t := mk {
  base : PublicationResponseDTO.t;
  author : option AuthorData.t
}.
End PublicationWithAuthorDTO.

Module PublicationMapper.

Definition toDTO (publication : Publication.t) : PublicationResponseDTO.t :=
  PublicationResponseDTO.mk
    (Publication.id publication)
    (Publication.title publication)
    (Publication.content publication)
    (Publication.status publication)
    (Publication.authorId publication)
    (Publication.authorName publication)
    (Publication.authorEmail publication)
    (Publication.abstract_text publication)
    (default [] (Publication.keywords publication))
    (Publication.reviewCount publication)
    (Publication.reviewNotes publication)
    (Publication.isVisible publication)
    (Publication.createdAt publication)
    (Publication.updatedAt publication).

Definition toDTOWithAuthor (publication : Publication.t) (author : AuthorData.t)
  : PublicationWithAuthorDTO.t :=
  PublicationWithAuthorDTO.mk
    (toDTO publication)
    (Some (AuthorData.mk (AuthorData.id author) (AuthorData.firstName author)
                         (AuthorData.lastName author) (AuthorData.email author)
                         (AuthorData.specialization author))).

Definition toDTOList (publications : list Publication.t)
  : list PublicationResponseDTO.t :=
  map toDTO publications.

End PublicationMapper.

(** ** service/PublicationService.ts *)

Module PublicationService.

(** The repository and the validation facade hold no state of their own;
    the service keeps the client it was constructed with. *)
Record t := mk {
  authorsServiceClient : AuthorsServiceClient.t
}.

Definition createPublication (this : t) (dto : CreatePublicationDTO.t)
  : M PublicationResponseDTO.t :=
  if negb (JS.truthy (CreatePublicationDTO.title dto))
     || negb (JS.truthy (CreatePublicationDTO.content dto))
     || negb (JS.truthy (CreatePublicationDTO.authorId dto))
  then throw (mkError "title, content, and authorId are required")
  else
    authorExists <- AuthorsServiceClient.authorExists
                      (authorsServiceClient this) (CreatePublicationDTO.authorId dto) ;;
    if negb authorExists
    then throw (mkError ("Author with id " +:+ CreatePublicationDTO.authorId dto
                         +:+ " not found"))
    else
      authorData <- AuthorsServiceClient.getAuthor
                      (authorsServiceClient this) (CreatePublicationDTO.authorId dto) ;;
      let publication :=
        Partial.mk
          (Some (CreatePublicationDTO.title dto))
          (Some (CreatePublicationDTO.content dto))
          (Some DRAFT)
          (Some (CreatePublicationDTO.authorId dto))
          None
          None
          (Some (match CreatePublicationDTO.abstract_text dto with
                 | Some a => if JS.truthy a then a else ""
                 | None => ""
                 end))
          (Some (default [] (CreatePublicationDTO.keywords dto)))
          None None None in
      let publication :=
        match authorData with
        | Some authorData =>
            Partial.set_author
              (AuthorData.firstName authorData +:+ " " +:+ AuthorData.lastName authorData)
              (AuthorData.email authorData)
              publication
        | None => publication
        end in
      savedPublication <- PublicationRepository.create publication ;;
      ret (PublicationMapper.toDTO savedPublication).

Definition changePublicationStatus (this : t) (id : string)
           (dto : ChangePublicationStatusDTO.t) : M PublicationResponseDTO.t :=
  found <- PublicationRepository.findById id ;;
  match found with
  | None => throw (mkError ("Publication with id " +:+ id +:+ " not found"))
  | Some publication =>
      _ <- lift (StateValidators.validateTransition publication
                   (ChangePublicationStatusDTO.status dto)) ;;
      if negb (Publication.canTransitionToStatus publication
                 (ChangePublicationStatusDTO.status dto))
      then throw (mkError ("Cannot transition from "
                           +:+ status_value (Publication.status publication)
                           +:+ " to "
                           +:+ status_value (ChangePublicationStatusDTO.status dto)))
      else
        (* [publication.reviewCount++] changes the entity held in this
           method; the entity is not handed to the repository below. *)
        let publication :=
          if bool_decide (ChangePublicationStatusDTO.status dto = IN_REVIEW)
          then Publication.set_reviewCount (Publication.reviewCount publication + 1)
                                           publication
          else publication in
        updated <- PublicationRepository.updateStatus id
                     (ChangePublicationStatusDTO.status dto)
                     (ChangePublicationStatusDTO.reviewNotes dto) ;;
        match updated with
        | None => throw (mkError "Failed to update publication status")
        | Some updated => ret (PublicationMapper.toDTO updated)
        end
  end.

Definition getPublicationById (this : t) (id : string) (includeAuthor : bool)
  : M PublicationWithAuthorDTO.t :=
  found <- PublicationRepository.findById id ;;
  match found with
  | None => throw (mkError ("Publication with id " +:+ id +:+ " not found"))
  | Some publication =>
      if includeAuthor && JS.truthy (Publication.authorId publication)
      then
        author <- AuthorsServiceClient.getAuthor (authorsServiceClient this)
                    (Publication.authorId publication) ;;
        match author with
        | Some author => ret (PublicationMapper.toDTOWithAuthor publication author)
        | None =>
            ret (PublicationWithAuthorDTO.mk (PublicationMapper.toDTO publication) None)
        end
      else ret (PublicationWithAuthorDTO.mk (PublicationMapper.toDTO publication) None)
  end.

Definition updatePublication (this : t) (id : string) (dto : UpdatePublicationDTO.t)
  : M PublicationResponseDTO.t :=
  found <- PublicationRepository.findById id ;;
  match found with
  | None => throw (mkError ("Publication with id " +:+ id +:+ " not found"))
  | Some publication =>
      if negb (Publication.canBeEdited publication)
      then throw (mkError ("Publication cannot be edited in "
                           +:+ status_value (Publication.status publication)
                           +:+ " status"))
      else
        updated <- PublicationRepository.update id (UpdatePublicationDTO.asPartial dto) ;;
        match updated with
        | None => throw (mkError "Failed to update publication")
        | Some updated => ret (PublicationMapper.toDTO updated)
        end
  end.

Definition deletePublication (this : t) (id : string) : M unit :=
  found <- PublicationRepository.findById id ;;
  match found with
  | None => throw (mkError ("Publication with id " +:+ id +:+ " not found"))
  | Some publication =>
      if bool_decide (Publication.status publication = PUBLISHED)
      then throw (mkError "Cannot delete published publications")
      else
        deleted <- PublicationRepository.delete id ;;
        if negb deleted
        then throw (mkError "Failed to delete publication")
        else ret tt
  end.

(** The object returned by [getStatistics], read by its key. *)
Definition getStatistics (this : t) : M (PublicationStatus -> Z) :=
  draft <- PublicationRepository.countByStatus DRAFT ;;
  in_review <- PublicationRepository.countByStatus IN_REVIEW ;;
  approved <- PublicationRepository.countByStatus APPROVED ;;
  published <- PublicationRepository.countByStatus PUBLISHED ;;
  rejected <- PublicationRepository.countByStatus REJECTED ;;
  ret (fun key =>
         match key with
         | DRAFT => draft
         | IN_REVIEW => in_review
         | APPROVED => approved
         | PUBLISHED => published
         | REJECTED => rejected
         end).

End PublicationService.

(** ** controller/PublicationController.ts: [handleError] *)

Module PublicationController.

(** The JSON error response: HTTP status, [error.code], [error.message]. *)
Record ErrorResponse := mkErrorResponse {
  http_status : Z;
  code : string;
  error_message : string
}.

Definition handleError (error : Error) : ErrorResponse :=
  if JS.includes (message error) "not found" then
    mkErrorResponse 404 "NOT_FOUND" (message error)
  else if JS.includes (message error) "required" then
    mkErrorResponse 400 "VALIDATION_ERROR" (message error)
  else if JS.includes (message error) "cannot be edited" then
    mkErrorResponse 400 "INVALID_STATE" (message error)
  else if JS.includes (message error) "Cannot transition" then
    mkErrorResponse 400 "INVALID_TRANSITION" (message error)
  else
    mkErrorResponse 500 "INTERNAL_ERROR" "An unexpected error occurred".

End PublicationController.

(** ** Definitions used to state the properties *)

(** The edges of the status graph, as the design document lists them. *)
Definition legal_edges : list (PublicationStatus * PublicationStatus) :=
  [ (DRAFT, IN_REVIEW); (DRAFT, REJECTED);
    (IN_REVIEW, APPROVED); (IN_REVIEW, REJECTED); (IN_REVIEW, DRAFT);
    (APPROVED, PUBLISHED);
    (REJECTED, DRAFT) ].

(** The validator in charge of a target status; [DRAFT] has none, which
    is a validator that always returns. *)
Definition validatorFor (target : PublicationStatus) : StateValidators.StateValidator :=
  match target with
  | DRAFT => fun _ _ => Return tt
  | IN_REVIEW => StateValidators.ToReviewValidator
  | APPROVED => StateValidators.ToApprovedValidator
  | PUBLISHED => StateValidators.ToPublishedValidator
  | REJECTED => StateValidators.ToRejectedValidator
  end.



Definition IllegalTransitionError (e : Error) : Prop :=
  exists from to : PublicationStatus,
    e = mkError ("Cannot transition from " +:+ status_value from
                 +:+ " to " +:+ status_value to).

(** The call returns a value. *)
Definition succeeds {A : Type} (outcome : result A * World) : Prop :=
  exists (a : A) (w' : World), outcome = (Return a, w').

(** Every code unit of the string is white space. *)
Fixpoint all_white (s : string) : bool :=
  match s with
  | EmptyString => true
  | String c r => JS.isWhiteSpace c && all_white r
  end.

(** A reply on which the promise of [get] rejects. *)
Definition rejected (r : Reply) : bool :=
  match r with
  | HttpReply code _ => negb ((200 <=? code) && (code <? 300))
  | NoReply => true
  end.

(** The remote fails every attempt from now on. *)
Definition always_fails (w : World) : Prop :=
  forall (k : nat) (url : string), rejected (remote w k url) = true.

(** Events of a call whose every attempt fails, from attempt number
    [attempt] with [more] attempts to follow the current one. *)
Fixpoint failing_events (url : string) (attempt more : nat) : list Event :=
  match more with
  | O => [Get url]
  | S more' =>
      Get url :: SetTimeout (AuthorsServiceClient.backoff attempt)
        :: failing_events url (S attempt) more'
  end.

(** The row that [updateStatus] leaves in the table in place of
    [publication], at database time [now]. *)
Definition updated_row (status : PublicationStatus) (reviewNotes : option string)
           (now : Z) (publication : Publication.t) : Publication.t :=
  PublicationRepository.apply
    (PublicationRepository.updateData status reviewNotes) now publication.

(** Sample data. *)
Module Sample.

Definition publication (status : PublicationStatus) (reviewNotes : option string)
  : Publication.t :=
  Publication.mk "p1" "Machine Learning Fundamentals" "Contenido" status
    1000 1000 "a1" (Some "Ada Lovelace") (Some "ada@example.org")
    (Some "") (Some []) 0 reviewNotes true.

Definition silent : nat -> string -> Reply := fun _ _ => NoReply.

(** The author is found by the first request and unreachable afterwards. *)
Definition vanishing : nat -> string -> Reply := fun k _ =>
  match k with
  | O => HttpReply 200 (Some (AuthorData.mk "a1" "Ada" "Lovelace" "ada@example.org" None))
  | S _ => NoReply
  end.

Definition world (status : PublicationStatus) (reviewNotes : option string) : World :=
  mkWorld {[ "p1" := publication status reviewNotes ]}
          (fun _ => "p2") 0 5000 silent [].

Definition world_vanishing : World :=
  mkWorld ∅ (fun _ => "p2") 0 5000 vanishing [].

Definition client : AuthorsServiceClient.t :=
  AuthorsServiceClient.constructor None 5000.

Definition service : PublicationService.t := PublicationService.mk client.

Definition request (status : PublicationStatus) (reviewNotes : option string)
  : ChangePublicationStatusDTO.t :=
  ChangePublicationStatusDTO.mk status reviewNotes.

Definition creation : CreatePublicationDTO.t :=
  CreatePublicationDTO.mk "Blockchain Security" "Security analysis" None "a1" None.

(** An author id and a publication id as the database writes them. *)
Definition author_uuid : string := "6f1c2a9e-3b7d-4c58-9e21-0a4d5b6c7d8e".

Definition publication_uuid : string := "0b9a8c7d-6e5f-4a3b-8c2d-1e0f9a8b7c6d".

Definition submission : CreatePublicationDTO.t :=
  CreatePublicationDTO.mk "Blockchain Security" "Security analysis" None
                          author_uuid (Some ["ledger, public"; "consensus"]).



(** The author is unreachable for the first request and found by the
    second. *)
Definition recovering : nat -> string -> Reply := fun k _ =>
  match k with
  | S O => HttpReply 200 (Some (AuthorData.mk "a1" "Ada" "Lovelace" "ada@example.org" None))
  | _ => NoReply
  end.

(** The author is found by every request. *)
Definition present : nat -> string -> Reply := fun _ _ =>
  HttpReply 200 (Some (AuthorData.mk "a1" "Ada" "Lovelace" "ada@example.org" None)).

Definition world_with (status : PublicationStatus) (reviewNotes : option string)
           (replies : nat -> string -> Reply) : World :=
  mkWorld {[ "p1" := publication status reviewNotes ]}
          (fun _ => "p2") 0 5000 replies [].

End Sample.



(** The row that [update] leaves in place of [p] for an update DTO whose
    title fits its column. *)
Definition edited_row (dto : UpdatePublicationDTO.t) (now : Z) (p : Publication.t)
  : Publication.t :=
  Publication.mk (Publication.id p)
    (match UpdatePublicationDTO.title dto with
     | Some t => Postgres.varchar_in 255 t
     | None => Publication.title p
     end)
    (default (Publication.content p) (UpdatePublicationDTO.content dto))
    (Publication.status p) (Publication.createdAt p) now
    (Publication.authorId p) (Publication.authorName p) (Publication.authorEmail p)
    (match UpdatePublicationDTO.abstract_text dto with
     | Some a => Some a
     | None => Publication.abstract_text p
     end)
    (match UpdatePublicationDTO.keywords dto with
     | Some k => Some (Postgres.simple_array_out k)
     | None => Publication.keywords p
     end)
    (Publication.reviewCount p)
    (match UpdatePublicationDTO.reviewNotes dto with
     | Some n => Some n
     | None => Publication.reviewNotes p
     end)
    (Publication.isVisible p).

(** The object [createPublication] hands to the repository, by what the
    fetch returned. *)
Definition new_publication (dto : CreatePublicationDTO.t)
           (authorData : option AuthorData.t) : Partial.t :=
  Partial.mk
    (Some (CreatePublicationDTO.title dto))
    (Some (CreatePublicationDTO.content dto))
    (Some DRAFT)
    (Some (CreatePublicationDTO.authorId dto))
    (match authorData with
     | Some a => Some (AuthorData.firstName a +:+ " " +:+ AuthorData.lastName a)
     | None => None
     end)
    (match authorData with
     | Some a => Some (AuthorData.email a)
     | None => None
     end)
    (Some (match CreatePublicationDTO.abstract_text dto with
           | Some a => if JS.truthy a then a else ""
           | None => ""
           end))
    (Some (default [] (CreatePublicationDTO.keywords dto)))
    None None None.

(** The entity that [save] returns for it in world [w]. *)
Definition new_entity (dto : CreatePublicationDTO.t)
           (authorData : option AuthorData.t) (w : World) : Publication.t :=
  Publication.mk (uuid_gen w (inserted w))
    (CreatePublicationDTO.title dto) (CreatePublicationDTO.content dto)
    DRAFT (clock w) (clock w) (CreatePublicationDTO.authorId dto)
    (Partial.authorName (new_publication dto authorData))
    (Partial.authorEmail (new_publication dto authorData))
    (Partial.abstract_text (new_publication dto authorData))
    (Some (default [] (CreatePublicationDTO.keywords dto)))
    0 None true.

(** The five keys of the statistics object. *)
Definition all_statuses : list PublicationStatus :=
  [DRAFT; IN_REVIEW; APPROVED; PUBLISHED; REJECTED].

(** Number of stored rows with a given status. *)
Definition rows_with_status (m : gmap string Publication.t) (s : PublicationStatus) : nat :=
  size (filter (fun kv : string * Publication.t =>
                  bool_decide (Publication.status kv.2 = s) = true) m).

(** Every row is stored under its own id. *)
Definition keyed (m : gmap string Publication.t) : Prop :=
  forall (k : string) (p : Publication.t), m !! k = Some p -> Publication.id p = k.

(** The columns no entry point of the service writes after creation. *)
Definition same_fixed_columns (p p' : Publication.t) : Prop :=
  Publication.id p' = Publication.id p
  /\ Publication.createdAt p' = Publication.createdAt p
  /\ Publication.authorId p' = Publication.authorId p
  /\ Publication.authorName p' = Publication.authorName p
  /\ Publication.authorEmail p' = Publication.authorEmail p
  /\ Publication.reviewCount p' = Publication.reviewCount p
  /\ Publication.isVisible p' = Publication.isVisible p.

(** ** Properties *)

(** *** Strings *)

Example trim_both_ends : JS.trim "  a b  " = "a b".
Proof. reflexivity. Qed.

Example includes_inside :
  JS.includes "Publication cannot be edited in REJECTED status" "cannot be edited" = true
  /\ JS.includes "Only APPROVED publications can be PUBLISHED" "required" = false.
Proof. split; reflexivity. Qed.

Lemma trimStart_all_white (s : string) :
  all_white (JS.trimStart s) = all_white s.
Proof.
  induction s as [| c r IH]; simpl; [reflexivity |].
  destruct (JS.isWhiteSpace c) eqn:Hc; simpl; [exact IH | now rewrite Hc].
Qed.

Lemma trimEnd_empty (s : string) :
  JS.trimEnd s = EmptyString <-> all_white s = true.
Proof.
  induction s as [| c r IH]; simpl; [tauto |].
  destruct (JS.trimEnd r) as [| c' r'] eqn:Hr.
  - destruct (JS.isWhiteSpace c); simpl.
    + rewrite <- IH. tauto.
    + split; discriminate.
  - split; [discriminate |].
    intros H. apply andb_true_iff in H. destruct H as [_ H].
    apply IH in H. discriminate.
Qed.

Lemma blank_iff_white (s : string) :
  StateValidators.blank s = true <-> all_white s = true.
Proof.
  unfold StateValidators.blank, JS.trim, JS.length.
  rewrite <- trimStart_all_white, <- trimEnd_empty, orb_true_iff. split.
  - intros [Hempty | Htrim].
    + destruct s; [reflexivity | discriminate].
    + destruct (JS.trimEnd (JS.trimStart s)); [reflexivity | discriminate].
  - intros ->. right. reflexivity.
Qed.

(** The test [!s || s.trim().length === 0] holds exactly of the strings
    made of white space only, the empty string among them. *)
Lemma blank_all_white (s : string) :
  StateValidators.blank s = all_white s.
Proof.
  pose proof (blank_iff_white s) as H.
  destruct (StateValidators.blank s), (all_white s); try reflexivity.
  - symmetry. now apply H.
  - now apply H.
Qed.

(** *** Column types *)

Example uuid_forms :
  Postgres.uuid_ok "6f1c2a9e-3b7d-4c58-9e21-0a4d5b6c7d8e" = true
  /\ Postgres.uuid_ok "{6F1C2A9E3B7D4C589E210A4D5B6C7D8E}" = true
  /\ Postgres.uuid_out "{6F1C2A9E3B7D4C589E210A4D5B6C7D8E}"
     = "6f1c2a9e-3b7d-4c58-9e21-0a4d5b6c7d8e"
  /\ Postgres.uuid_ok "p9" = false
  /\ Postgres.uuid_ok "6f1c2a9e-3b7d-4c58-9e21-0a4d5b6c7d8" = false
  /\ Postgres.uuid_ok "6f1c2a9e-3b7d-4c58-9e21-0a4d5b6c7d8e0" = false.
Proof. repeat split; reflexivity. Qed.

Example varchar_forms :
  Postgres.varchar_ok 3 "abc" = true /\ Postgres.varchar_in 3 "abc" = "abc"
  /\ Postgres.varchar_ok 3 "abcd" = false
  /\ Postgres.varchar_ok 3 "abc  " = true /\ Postgres.varchar_in 3 "abc  " = "abc".
Proof. repeat split; reflexivity. Qed.

Example simple_array_forms :
  Postgres.simple_array_out ["a"; "b"] = ["a"; "b"]
  /\ Postgres.simple_array_out ["a,b"; "c"] = ["a"; "b"; "c"]
  /\ Postgres.simple_array_out [] = []
  /\ Postgres.simple_array_out [""] = []
  /\ Postgres.simple_array_out [""; ""] = [""; ""].
Proof. repeat split; reflexivity. Qed.





(** *** The status graph *)

Lemma includes_In (l : list PublicationStatus) (x : PublicationStatus) :
  Publication.includes l x = true <-> In x l.
Proof.
  unfold Publication.includes. rewrite existsb_exists. split.
  - intros (y & Hy & Heq). apply bool_decide_eq_true in Heq. now subst.
  - intros Hin. exists x. split; [assumption | now apply bool_decide_eq_true].
Qed.

Lemma legal_edges_validTransitions (from to : PublicationStatus) :
  In (from, to) legal_edges <-> In to (Publication.validTransitions from).
Proof.
  unfold legal_edges. destruct from, to; simpl; split; intros H;
    repeat (destruct H as [H | H]; try discriminate H; try contradiction);
    tauto.
Qed.

(** C4: [canTransitionToStatus] depends on the receiver through its status
    only, answers [true] exactly on the seven listed edges, and answers
    [false] on every request made from [PUBLISHED]. *)
Theorem canTransitionToStatus_table :
  (forall (p : Publication.t) (to : PublicationStatus),
      Publication.canTransitionToStatus p to = true
      <-> In (Publication.status p, to) legal_edges)
  /\ (forall (p q : Publication.t) (to : PublicationStatus),
         Publication.status p = Publication.status q ->
         Publication.canTransitionToStatus p to = Publication.canTransitionToStatus q to)
  /\ (forall (p : Publication.t) (to : PublicationStatus),
         Publication.status p = PUBLISHED ->
         Publication.canTransitionToStatus p to = false).
Proof.
  split; [| split].
  - intros p to. unfold Publication.canTransitionToStatus.
    rewrite includes_In. symmetry. apply legal_edges_validTransitions.
  - intros p q to Heq. unfold Publication.canTransitionToStatus. now rewrite Heq.
  - intros p to Hp. unfold Publication.canTransitionToStatus. now rewrite Hp.
Qed.

Lemma canTransitionToStatus_table_witness :
  Publication.canTransitionToStatus (Sample.publication PUBLISHED None) DRAFT = false
  /\ Publication.canTransitionToStatus (Sample.publication DRAFT None) IN_REVIEW
     = Publication.canTransitionToStatus (Sample.publication DRAFT (Some "x")) IN_REVIEW.
Proof.
  split.
  - apply (proj2 (proj2 canTransitionToStatus_table)). reflexivity.
  - apply (proj1 (proj2 canTransitionToStatus_table)). reflexivity.
Defined.

(** *** The validators and their facade *)

Section Validators.

Import StateValidators.

Variable publication : Publication.t.
Variable newStatus : PublicationStatus.

Lemma validators_by_target :
  validators = map validatorFor [IN_REVIEW; APPROVED; PUBLISHED; REJECTED].
Proof. reflexivity. Qed.

(** A validator returns at once on a target that is not its own. *)
Lemma validatorFor_other (target : PublicationStatus) :
  target <> newStatus -> validatorFor target publication newStatus = Return tt.
Proof.
  intros Hne.
  destruct target; simpl; try reflexivity;
    unfold ToReviewValidator, ToApprovedValidator, ToPublishedValidator,
      ToRejectedValidator;
    rewrite bool_decide_eq_false_2 by congruence; reflexivity.
Qed.

Lemma runValidators_Return (vs : list StateValidator) :
  runValidators vs publication newStatus = Return tt
  <-> Forall (fun v => v publication newStatus = Return tt) vs.
Proof.
  induction vs as [| v vs IH]; simpl.
  - split; [constructor | reflexivity].
  - destruct (v publication newStatus) as [[] |e] eqn:Hv.
    + rewrite IH. split.
      * intros H. constructor; assumption.
      * intros H. inversion H; assumption.
    + split; [discriminate |].
      intros H. inversion H; subst. congruence.
Qed.

Lemma runValidators_Throw (vs : list StateValidator) (e : Error) :
  runValidators vs publication newStatus = Throw e ->
  exists v, In v vs /\ v publication newStatus = Throw e.
Proof.
  induction vs as [| v vs IH]; simpl; [discriminate |].
  destruct (v publication newStatus) as [[] |e'] eqn:Hv.
  - intros H. destruct (IH H) as (v' & Hin & Hv'). exists v'. tauto.
  - intros H. exists v. split; [now left | congruence].
Qed.

(** Whatever a registered validator throws, the validator in charge of
    the requested target throws the same. *)
Lemma Throw_validatorFor (v : StateValidator) (e : Error) :
  In v validators -> v publication newStatus = Throw e ->
  validatorFor newStatus publication newStatus = Throw e.
Proof.
  rewrite validators_by_target, in_map_iff.
  intros (target & <- & _) Hthrow.
  destruct (decide (target = newStatus)) as [-> | Hne]; [assumption |].
  rewrite validatorFor_other in Hthrow by assumption. discriminate.
Qed.

Lemma validatorFor_registered :
  newStatus <> DRAFT -> In (validatorFor newStatus) validators.
Proof.
  intros Hne. rewrite validators_by_target. apply in_map.
  destruct newStatus; simpl; tauto.
Qed.

(** Any list with the same validators as the registered ones, in any
    order and multiplicity, has the outcome of the validator in charge. *)
Lemma runValidators_same_members (vs : list StateValidator) :
  (forall v, In v vs <-> In v validators) ->
  runValidators vs publication newStatus
  = validatorFor newStatus publication newStatus.
Proof.
  intros Hsame.
  destruct (runValidators vs publication newStatus) as [[] | e] eqn:Hrun.
  - rewrite runValidators_Return, Stdlib.Lists.List.Forall_forall in Hrun.
    destruct (decide (newStatus = DRAFT)) as [-> | Hne]; [reflexivity |].
    symmetry. apply Hrun, Hsame, validatorFor_registered, Hne.
  - apply runValidators_Throw in Hrun. destruct Hrun as (v & Hin & Hv).
    symmetry. apply (Throw_validatorFor v); [apply Hsame, Hin | exact Hv].
Qed.

End Validators.

(** The facade runs the validator in charge of the requested status. *)
Lemma validateTransition_validatorFor
      (publication : Publication.t) (newStatus : PublicationStatus) :
  StateValidators.validateTransition publication newStatus
  = validatorFor newStatus publication newStatus.
Proof. apply runValidators_same_members. intros v. reflexivity. Qed.

(** C6: the facade's outcome is the outcome of the validator in charge of
    the requested status (success for [DRAFT]); every other validator
    returns at once; and running the registered validators in any other
    order gives the same outcome. *)
Theorem validateTransition_single_validator
        (publication : Publication.t) (newStatus : PublicationStatus) :
  StateValidators.validateTransition publication newStatus
  = validatorFor newStatus publication newStatus
  /\ validatorFor DRAFT publication newStatus = Return tt
  /\ (forall target : PublicationStatus,
         target <> newStatus ->
         validatorFor target publication newStatus = Return tt)
  /\ (forall vs : list StateValidators.StateValidator,
         Permutation vs StateValidators.validators ->
         StateValidators.runValidators vs publication newStatus
         = StateValidators.validateTransition publication newStatus).
Proof.
  pose proof (validateTransition_validatorFor publication newStatus) as Hfacade.
  repeat split.
  - exact Hfacade.
  - apply validatorFor_other.
  - intros vs Hperm. rewrite Hfacade. apply runValidators_same_members.
    intros v. split; apply Permutation_in;
      [exact Hperm | apply Permutation_sym, Hperm].
Qed.

Lemma validateTransition_single_validator_witness :
  StateValidators.runValidators
    (rev StateValidators.validators)
    (Sample.publication IN_REVIEW None) APPROVED
  = StateValidators.validateTransition (Sample.publication IN_REVIEW None) APPROVED
  /\ validatorFor REJECTED (Sample.publication IN_REVIEW None) APPROVED = Return tt.
Proof.
  split.
  - apply (validateTransition_single_validator
             (Sample.publication IN_REVIEW None) APPROVED).
    apply Permutation_sym, Permutation_rev.
  - apply (validateTransition_single_validator
             (Sample.publication IN_REVIEW None) APPROVED).
    discriminate.
Defined.

(** *** Status changes *)

(** An id under which a row is stored reaches that row. *)
Lemma row_key_stored (id : string) (w : World) (p : Publication.t) :
  rows w !! id = Some p ->
  PublicationRepository.id_ok id w = true /\ PublicationRepository.row_key id w = id.
Proof.
  intros Hrow. unfold PublicationRepository.id_ok, PublicationRepository.row_key.
  rewrite Hrow. split; reflexivity.
Qed.

(** An id under which no row is stored reaches the row under its output
    form, when it is a uuid. *)
Lemma row_key_absent (id : string) (w : World) :
  rows w !! id = None ->
  PublicationRepository.id_ok id w = Postgres.uuid_ok id
  /\ PublicationRepository.row_key id w = Postgres.uuid_out id.
Proof.
  intros Hrow. unfold PublicationRepository.id_ok, PublicationRepository.row_key.
  rewrite Hrow. split; reflexivity.
Qed.

(** Which row an id reaches does not change when a row is updated. *)
Lemma row_key_alter (f : Publication.t -> Publication.t) (k id : string) (w : World) :
  PublicationRepository.id_ok id (set_rows (alter f k (rows w)) w)
  = PublicationRepository.id_ok id w
  /\ PublicationRepository.row_key id (set_rows (alter f k (rows w)) w)
     = PublicationRepository.row_key id w.
Proof.
  unfold PublicationRepository.id_ok, PublicationRepository.row_key.
  cbn [rows set_rows].
  destruct (rows w !! id) as [p |] eqn:Hrow.
  - destruct (alter f k (rows w) !! id) as [q |] eqn:Haltered; [split; reflexivity |].
    apply lookup_alter_None in Haltered. congruence.
  - assert (Haltered : alter f k (rows w) !! id = None)
      by (apply lookup_alter_None; exact Hrow).
    rewrite Haltered. split; reflexivity.
Qed.

(** [update] on an id that reaches a row, with values that fit their
    columns: the row is replaced by its update and read back. *)
Lemma update_reaches (id : string) (data : Partial.t) (w : World) (p : Publication.t) :
  PublicationRepository.id_ok id w = true ->
  rows w !! PublicationRepository.row_key id w = Some p ->
  Postgres.columns_ok data = true ->
  PublicationRepository.update id data w
  = (Return (Some (PublicationRepository.apply data (clock w) p)),
     set_rows (<[PublicationRepository.row_key id w
                 := PublicationRepository.apply data (clock w) p]> (rows w)) w).
Proof.
  intros Hok Hrow Hfit.
  unfold PublicationRepository.update, PublicationRepository.repository_update, bind.
  rewrite Hok, Hrow, Hfit. unfold PublicationRepository.findById.
  destruct (row_key_alter (PublicationRepository.apply data (clock w))
              (PublicationRepository.row_key id w) id w) as [-> ->].
  rewrite Hok. cbn [rows set_rows]. rewrite lookup_alter_eq, Hrow.
  cbn [fmap option_fmap option_map].
  do 2 f_equal. apply map_eq. intros k.
  destruct (decide (PublicationRepository.row_key id w = k)) as [<- | Hne].
  - now rewrite lookup_alter_eq, lookup_insert_eq, Hrow.
  - now rewrite lookup_alter_ne, lookup_insert_ne by assumption.
Qed.

(** [update] on a stored row with values that fit their columns. *)
Lemma update_stored (id : string) (data : Partial.t) (w : World) (p : Publication.t) :
  rows w !! id = Some p ->
  Postgres.columns_ok data = true ->
  PublicationRepository.update id data w
  = (Return (Some (PublicationRepository.apply data (clock w) p)),
     set_rows (<[id := PublicationRepository.apply data (clock w) p]> (rows w)) w).
Proof.
  intros Hrow Hfit. destruct (row_key_stored id w p Hrow) as [Hok Hkey].
  rewrite (update_reaches id data w p Hok); rewrite ?Hkey; auto.
Qed.

(** The update that [updateStatus] asks for fits every column. *)
Lemma updateData_fits (status : PublicationStatus) (reviewNotes : option string) :
  Postgres.columns_ok (PublicationRepository.updateData status reviewNotes) = true.
Proof.
  unfold PublicationRepository.updateData.
  destruct reviewNotes as [n |]; [destruct (JS.truthy n) |]; reflexivity.
Qed.

(** [updateStatus] on a stored row: the row is replaced by its update and
    read back. *)
Lemma updateStatus_row (id : string) (status : PublicationStatus)
      (reviewNotes : option string) (w : World) (publication : Publication.t) :
  rows w !! id = Some publication ->
  PublicationRepository.updateStatus id status reviewNotes w
  = (Return (Some (updated_row status reviewNotes (clock w) publication)),
     set_rows (<[id := updated_row status reviewNotes (clock w) publication]> (rows w)) w).
Proof.
  intros Hrow. unfold PublicationRepository.updateStatus, updated_row.
  apply update_stored; [exact Hrow | apply updateData_fits].
Qed.

Section StatusChange.

Variable this : PublicationService.t.
Variable id : string.
Variable dto : ChangePublicationStatusDTO.t.
Variable w : World.

Local Abbreviation newStatus := (ChangePublicationStatusDTO.status dto).
Local Abbreviation notes := (ChangePublicationStatusDTO.reviewNotes dto).

(** What a status change does to the row it reaches, stored under [k]. *)
Local Abbreviation change_at k publication :=
  (match StateValidators.validateTransition publication newStatus with
   | Throw e => (Throw e, w)
   | Return _ =>
       if Publication.canTransitionToStatus publication newStatus
       then (Return (PublicationMapper.toDTO
                       (updated_row newStatus notes (clock w) publication)),
             set_rows (<[k := updated_row newStatus notes (clock w) publication]>
                         (rows w)) w)
       else (Throw (mkError ("Cannot transition from "
                             +:+ status_value (Publication.status publication)
                             +:+ " to " +:+ status_value newStatus)), w)
   end).

Lemma changePublicationStatus_reaches :
  PublicationService.changePublicationStatus this id dto w =
  if PublicationRepository.id_ok id w
  then
    match rows w !! PublicationRepository.row_key id w with
    | None => (Throw (mkError ("Publication with id " +:+ id +:+ " not found")), w)
    | Some publication => change_at (PublicationRepository.row_key id w) publication
    end
  else (Throw (Postgres.invalid_uuid id), w).
Proof.
  unfold PublicationService.changePublicationStatus.
  unfold bind at 1. unfold PublicationRepository.findById at 1.
  destruct (PublicationRepository.id_ok id w) eqn:Hok; [| reflexivity].
  destruct (rows w !! PublicationRepository.row_key id w) as [publication |] eqn:Hrow;
    [| reflexivity].
  unfold bind at 1. unfold lift.
  destruct (StateValidators.validateTransition publication newStatus) as [[] | e];
    [| reflexivity].
  destruct (Publication.canTransitionToStatus publication newStatus);
    [| reflexivity].
  cbn [negb]. unfold bind, PublicationRepository.updateStatus.
  rewrite (update_reaches id _ w publication Hok Hrow (updateData_fits _ _)).
  reflexivity.
Qed.

(** The ways a status change ends: on the row stored under the id; on the
    row stored under the output form of the id; with the "not found" error
    when the id is a uuid that reaches no row; with the error of the failed
    query when it is stored under no key and is not a uuid. *)
Lemma changePublicationStatus_cases :
  PublicationService.changePublicationStatus this id dto w =
  match rows w !! id with
  | Some publication => change_at id publication
  | None =>
      if Postgres.uuid_ok id
      then
        match rows w !! Postgres.uuid_out id with
        | Some publication => change_at (Postgres.uuid_out id) publication
        | None => (Throw (mkError ("Publication with id " +:+ id +:+ " not found")), w)
        end
      else (Throw (Postgres.invalid_uuid id), w)
  end.
Proof.
  rewrite changePublicationStatus_reaches.
  unfold PublicationRepository.id_ok, PublicationRepository.row_key.
  destruct (rows w !! id) as [publication |] eqn:Hrow.
  - rewrite Hrow. reflexivity.
  - destruct (Postgres.uuid_ok id); [| reflexivity].
    destruct (rows w !! Postgres.uuid_out id); reflexivity.
Qed.


Lemma updated_row_status (publication : Publication.t) :
  Publication.status (updated_row newStatus notes (clock w) publication) = newStatus.
Proof.
  unfold updated_row, PublicationRepository.updateData.
  destruct notes as [n |]; [destruct (JS.truthy n) |]; reflexivity.
Qed.

(** A request for the status the publication already has is refused by
    its validator or, failing that, by the status graph. *)
Lemma same_status_refused (publication : Publication.t) :
  newStatus = Publication.status publication ->
  (exists e, StateValidators.validateTransition publication newStatus = Throw e)
  \/ Publication.canTransitionToStatus publication newStatus = false.
Proof.
  intros Hsame.
  rewrite (validateTransition_validatorFor publication newStatus).
  unfold Publication.canTransitionToStatus.
  rewrite Hsame. destruct (Publication.status publication) eqn:Hstatus; simpl.
  - right. reflexivity.
  - left. unfold StateValidators.ToReviewValidator. rewrite Hstatus. simpl.
    destruct (StateValidators.blank (Publication.title publication));
      [eexists; reflexivity |].
    destruct (StateValidators.blank (Publication.content publication));
      eexists; reflexivity.
  - left. unfold StateValidators.ToApprovedValidator. rewrite Hstatus. simpl.
    eexists; reflexivity.
  - right. reflexivity.
  - right. reflexivity.
Qed.

End StatusChange.

(** C5: a status change that fails, whatever the reason, leaves the world
    as it found it: the [publications] table holds the rows it held. *)
Theorem changePublicationStatus_failure_no_effect
        (this : PublicationService.t) (id : string)
        (dto : ChangePublicationStatusDTO.t) (w w' : World) (e : Error) :
  PublicationService.changePublicationStatus this id dto w = (Throw e, w') ->
  w' = w /\ rows w' !! id = rows w !! id.
Proof.
  intros Hfail.
  assert (Hw : w' = w).
  { rewrite changePublicationStatus_reaches in Hfail.
    destruct (PublicationRepository.id_ok id w); [| now injection Hfail].
    destruct (rows w !! PublicationRepository.row_key id w) as [publication |];
      [| now injection Hfail].
    destruct (StateValidators.validateTransition _ _) as [[] | e'].
    - destruct (Publication.canTransitionToStatus _ _).
      + discriminate.
      + now injection Hfail.
    - now injection Hfail. }
  subst w'. split; reflexivity.
Qed.

Lemma changePublicationStatus_failure_no_effect_witness :
  snd (PublicationService.changePublicationStatus Sample.service "p1"
         (Sample.request APPROVED (Some "Aprobado")) (Sample.world DRAFT None))
  = Sample.world DRAFT None.
Proof.
  apply (changePublicationStatus_failure_no_effect Sample.service "p1"
           (Sample.request APPROVED (Some "Aprobado")) (Sample.world DRAFT None) _
           (mkError "Only IN_REVIEW publications can be APPROVED")).
  vm_compute. reflexivity.
Defined.

(** C9: no status has an edge to itself, and a request for the status a
    publication already has fails, whatever the publication holds. *)
Theorem same_status_never_succeeds :
  (forall p : Publication.t,
      Publication.canTransitionToStatus p (Publication.status p) = false)
  /\ (forall (this : PublicationService.t) (id : string)
             (dto : ChangePublicationStatusDTO.t) (w : World) (p : Publication.t),
         rows w !! id = Some p ->
         ChangePublicationStatusDTO.status dto = Publication.status p ->
         exists e : Error,
           PublicationService.changePublicationStatus this id dto w = (Throw e, w)).
Proof.
  split.
  - intros p. unfold Publication.canTransitionToStatus.
    destruct (Publication.status p); reflexivity.
  - intros this id dto w p Hrow Hsame.
    rewrite changePublicationStatus_cases, Hrow.
    destruct (same_status_refused dto p Hsame) as [[e He] | Hcan].
    + rewrite He. eexists; reflexivity.
    + rewrite Hcan.
      destruct (StateValidators.validateTransition _ _) as [[] | e];
        eexists; reflexivity.
Qed.

Lemma same_status_never_succeeds_witness :
  exists e : Error,
    PublicationService.changePublicationStatus Sample.service "p1"
      (Sample.request APPROVED (Some "Aprobado"))
      (Sample.world APPROVED (Some "Aprobado"))
    = (Throw e, Sample.world APPROVED (Some "Aprobado")).
Proof.
  apply (proj2 same_status_never_succeeds Sample.service "p1"
           (Sample.request APPROVED (Some "Aprobado"))
           (Sample.world APPROVED (Some "Aprobado"))
           (Sample.publication APPROVED (Some "Aprobado"))).
  - reflexivity.
  - reflexivity.
Defined.

(** C10: when the review notes handed to [updateStatus] are absent or the
    empty string, the update carries the status alone, and the stored row
    keeps the review notes it had; only its status and its update
    timestamp change. *)
Theorem updateStatus_falsy_notes
        (id : string) (status : PublicationStatus) (reviewNotes : option string)
        (w : World) (p : Publication.t) :
  rows w !! id = Some p ->
  JS.truthy_opt reviewNotes = false ->
  let p' :=
    Publication.mk (Publication.id p) (Publication.title p) (Publication.content p)
      status (Publication.createdAt p) (clock w) (Publication.authorId p)
      (Publication.authorName p) (Publication.authorEmail p)
      (Publication.abstract_text p) (Publication.keywords p)
      (Publication.reviewCount p) (Publication.reviewNotes p)
      (Publication.isVisible p) in
  PublicationRepository.updateData status reviewNotes
  = Partial.set_status status Partial.empty
  /\ PublicationRepository.updateStatus id status reviewNotes w
     = (Return (Some p'), set_rows (<[id := p']> (rows w)) w)
  /\ rows (snd (PublicationRepository.updateStatus id status reviewNotes w)) !! id
     = Some p'
  /\ Publication.reviewNotes p' = Publication.reviewNotes p.
Proof.
  intros Hrow Hfalsy p'.
  assert (Hdata : PublicationRepository.updateData status reviewNotes
                  = Partial.set_status status Partial.empty).
  { unfold PublicationRepository.updateData.
    destruct reviewNotes as [n |]; [| reflexivity].
    simpl in Hfalsy. now rewrite Hfalsy. }
  assert (Hupdate : PublicationRepository.updateStatus id status reviewNotes w
                    = (Return (Some p'), set_rows (<[id := p']> (rows w)) w)).
  { rewrite (updateStatus_row id status reviewNotes w p Hrow).
    unfold updated_row. rewrite Hdata. reflexivity. }
  repeat split.
  - exact Hdata.
  - exact Hupdate.
  - rewrite Hupdate. cbn [snd rows set_rows]. apply lookup_insert_eq.
Qed.

Lemma updateStatus_falsy_notes_witness :
  PublicationRepository.updateStatus "p1" REJECTED (Some "")
    (Sample.world IN_REVIEW (Some "En revision"))
  = (Return (Some (Publication.mk "p1" "Machine Learning Fundamentals" "Contenido"
                     REJECTED 1000 5000 "a1" (Some "Ada Lovelace")
                     (Some "ada@example.org") (Some "") (Some []) 0
                     (Some "En revision") true)),
     set_rows
       (<["p1" := Publication.mk "p1" "Machine Learning Fundamentals" "Contenido"
                    REJECTED 1000 5000 "a1" (Some "Ada Lovelace")
                    (Some "ada@example.org") (Some "") (Some []) 0
                    (Some "En revision") true]>
          (rows (Sample.world IN_REVIEW (Some "En revision"))))
       (Sample.world IN_REVIEW (Some "En revision"))).
Proof.
  apply (updateStatus_falsy_notes "p1" REJECTED (Some "")
           (Sample.world IN_REVIEW (Some "En revision"))
           (Sample.publication IN_REVIEW (Some "En revision"))).
  - reflexivity.
  - reflexivity.
Defined.








(** C2, on the code: approval reads the review notes stored with the
    publication and not those of the request.  A publication in review
    without stored notes is not approved by a request that carries notes:
    the validator throws, nothing is written, and [handleError] answers
    400 VALIDATION_ERROR.  One with stored notes is approved by a request
    that carries none, and keeps the notes it had. *)
Theorem approval_reads_stored_notes :
  PublicationService.changePublicationStatus Sample.service "p1"
    (Sample.request APPROVED (Some "Aprobado por comite"))
    (Sample.world IN_REVIEW None)
  = (Throw (mkError "Review notes are required for approval"),
     Sample.world IN_REVIEW None)
  /\ PublicationController.handleError
       (mkError "Review notes are required for approval")
     = PublicationController.mkErrorResponse 400 "VALIDATION_ERROR"
         "Review notes are required for approval"
  /\ (exists (d : PublicationResponseDTO.t) (w' : World),
         PublicationService.changePublicationStatus Sample.service "p1"
           (Sample.request APPROVED None)
           (Sample.world IN_REVIEW (Some "En revision"))
         = (Return d, w')
         /\ PublicationResponseDTO.status d = APPROVED
         /\ PublicationResponseDTO.reviewNotes d = Some "En revision"
         /\ Publication.status <$> rows w' !! "p1" = Some APPROVED).
Proof.
  split; [| split].
  - vm_compute. reflexivity.
  - vm_compute. reflexivity.
  - do 2 eexists. split; [vm_compute; reflexivity |].
    repeat split; vm_compute; reflexivity.
Qed.

Lemma only_approved_not_illegal_transition :
  ~ IllegalTransitionError (mkError "Only APPROVED publications can be PUBLISHED").
Proof.
  intros (from & to & H). destruct from, to; vm_compute in H; discriminate H.
Qed.

(** C3, on the code: for a rejected publication the request to publish
    fails, and nothing is written, but the error is the one of
    [ToPublishedValidator], which runs before the status graph is asked;
    it is not the illegal-transition error, and [handleError] answers it
    with 500 INTERNAL_ERROR.  The graph has no such edge, and its error
    would be answered with 400 INVALID_TRANSITION.  A publication in
    review gets the same validator error. *)
Theorem rejected_to_published_validator_error :
  PublicationService.changePublicationStatus Sample.service "p1"
    (Sample.request PUBLISHED (Some "Publicado"))
    (Sample.world REJECTED (Some "No cumple"))
  = (Throw (mkError "Only APPROVED publications can be PUBLISHED"),
     Sample.world REJECTED (Some "No cumple"))
  /\ ~ IllegalTransitionError (mkError "Only APPROVED publications can be PUBLISHED")
  /\ PublicationController.handleError
       (mkError "Only APPROVED publications can be PUBLISHED")
     = PublicationController.mkErrorResponse 500 "INTERNAL_ERROR"
         "An unexpected error occurred"
  /\ Publication.canTransitionToStatus
       (Sample.publication REJECTED (Some "No cumple")) PUBLISHED = false
  /\ PublicationController.handleError
       (mkError "Cannot transition from REJECTED to PUBLISHED")
     = PublicationController.mkErrorResponse 400 "INVALID_TRANSITION"
         "Cannot transition from REJECTED to PUBLISHED"
  /\ PublicationService.changePublicationStatus Sample.service "p1"
       (Sample.request PUBLISHED (Some "Invalid transition"))
       (Sample.world IN_REVIEW (Some "Enviado para revision editorial"))
     = (Throw (mkError "Only APPROVED publications can be PUBLISHED"),
        Sample.world IN_REVIEW (Some "Enviado para revision editorial")).
Proof.
  split; [| split; [| split; [| split; [| split]]]].
  - vm_compute. reflexivity.
  - exact only_approved_not_illegal_transition.
  - reflexivity.
  - reflexivity.
  - reflexivity.
  - vm_compute. reflexivity.
Qed.

(** *** The authors-service client *)

Section Retry.

Variable this : AuthorsServiceClient.t.

Lemma retryRequest_returns {T : Type} (requestFn : M T) (attempt : nat)
      (w w1 : World) (r : T) :
  requestFn w = (Return r, w1) ->
  AuthorsServiceClient.retryRequest this requestFn attempt w = (Return r, w1).
Proof. intros H. simp retryRequest. rewrite H. reflexivity. Qed.

Lemma retryRequest_retries {T : Type} (requestFn : M T) (attempt : nat)
      (w w1 : World) (e : Error) :
  requestFn w = (Throw e, w1) ->
  (attempt < AuthorsServiceClient.maxRetries this)%nat ->
  AuthorsServiceClient.retryRequest this requestFn attempt w
  = AuthorsServiceClient.retryRequest this requestFn (attempt + 1)
      (snd (AuthorsServiceClient.sleep (AuthorsServiceClient.backoff attempt) w1)).
Proof.
  intros H Hlt. rewrite AuthorsServiceClient.retryRequest_equation_1. rewrite H. simpl.
  destruct (lt_dec attempt (AuthorsServiceClient.maxRetries this)); [| contradiction].
  simpl. reflexivity.
Qed.

Lemma retryRequest_gives_up {T : Type} (requestFn : M T) (attempt : nat)
      (w w1 : World) (e : Error) :
  requestFn w = (Throw e, w1) ->
  ~ (attempt < AuthorsServiceClient.maxRetries this)%nat ->
  AuthorsServiceClient.retryRequest this requestFn attempt w = (Throw e, w1).
Proof.
  intros H Hge. rewrite AuthorsServiceClient.retryRequest_equation_1. rewrite H. simpl.
  destruct (lt_dec attempt (AuthorsServiceClient.maxRetries this)); [contradiction |].
  simpl. reflexivity.
Qed.

Variable path : string.

Local Abbreviation url := (AuthorsServiceClient.baseURL this +:+ path).

Lemma get_rejected (w : World) :
  always_fails w ->
  exists e : Error,
    AuthorsServiceClient.get this path w = (Throw e, log (Get url) w).
Proof.
  intros Hfails. unfold AuthorsServiceClient.get.
  specialize (Hfails (requests w) url).
  destruct (remote w (requests w) url) as [code body |]; simpl in Hfails.
  - apply negb_true_iff in Hfails. rewrite Hfails. eexists; reflexivity.
  - eexists; reflexivity.
Qed.

(** Against a remote that fails every attempt, [retryRequest] started at
    [attempt] sends one request per remaining attempt, sleeps between
    them, and throws. *)
Lemma retryRequest_always_fails (more attempt : nat) (w : World) :
  always_fails w ->
  (AuthorsServiceClient.maxRetries this - attempt = more)%nat ->
  exists (e : Error) (w' : World),
    AuthorsServiceClient.retryRequest this (AuthorsServiceClient.get this path) attempt w
    = (Throw e, w')
    /\ trace w' = (trace w ++ failing_events url attempt more)%list
    /\ rows w' = rows w.
Proof.
  revert attempt w.
  induction more as [| more IH]; intros attempt w Hfails Hmore;
    destruct (get_rejected w Hfails) as [e Hget].
  - exists e, (log (Get url) w). split; [| split; reflexivity].
    apply retryRequest_gives_up; [exact Hget | lia].
  - rewrite (retryRequest_retries _ attempt w _ e Hget) by lia.
    destruct (IH (attempt + 1)%nat
                 (snd (AuthorsServiceClient.sleep
                         (AuthorsServiceClient.backoff attempt) (log (Get url) w))))
      as (e' & w' & Hretry & Htrace & Hrows).
    + intros k u. apply Hfails.
    + lia.
    + exists e', w'. split; [exact Hretry |]. split.
      * rewrite Htrace. cbn [snd AuthorsServiceClient.sleep trace set_clock log].
        rewrite <- !app_assoc. cbn [app failing_events].
        now rewrite Nat.add_1_r.
      * rewrite Hrows. reflexivity.
Qed.

End Retry.

Lemma requests_app (w w' : World) (events : list Event) :
  trace w' = (trace w ++ events)%list ->
  requests w' = (requests w + List.length (List.filter is_get events))%nat.
Proof.
  intros H. unfold requests. now rewrite H, List.filter_app, List.length_app.
Qed.

(** The [catch] clauses of the two lookups turn every failure into a
    value. *)
Lemma authorExists_never_throws (this : AuthorsServiceClient.t) (id : string)
      (w : World) :
  exists (b : bool) (w' : World),
    AuthorsServiceClient.authorExists this id w = (Return b, w').
Proof.
  unfold AuthorsServiceClient.authorExists, try_catch, bind.
  destruct (AuthorsServiceClient.retryRequest _ _ _ _) as [[response | e] w1];
    do 2 eexists; reflexivity.
Qed.

Lemma getAuthor_never_throws (this : AuthorsServiceClient.t) (id : string)
      (w : World) :
  exists (a : option AuthorData.t) (w' : World),
    AuthorsServiceClient.getAuthor this id w = (Return a, w').
Proof.
  unfold AuthorsServiceClient.getAuthor, try_catch, bind.
  destruct (AuthorsServiceClient.retryRequest _ _ _ _) as [[response | e] w1];
    do 2 eexists; reflexivity.
Qed.

(** C7: with the client the constructor builds, against a remote that
    fails every attempt, [authorExists] and [getAuthor] each send exactly
    three requests, wait 2000 ms after the first and 4000 ms after the
    second, and return [false] and no value; and whatever the remote
    does, and whatever the retry limit is, neither of them throws.  The
    waits are real: the second request is sent when the clock has advanced
    by 2000 ms, the third when it has advanced by 6000 ms, and the call
    ends in the world that differs from the first one by these 6000 ms and
    the five events. *)
Theorem failing_remote_three_attempts
        (env_url : option string) (timeout : Z) (authorId : string) (w : World) :
  let client := AuthorsServiceClient.constructor env_url timeout in
  let url := AuthorsServiceClient.baseURL client +:+ "/authors/" +:+ authorId in
  let events := [Get url; SetTimeout 2000; Get url; SetTimeout 4000; Get url] in
  always_fails w ->
  (exists w' : World,
      AuthorsServiceClient.authorExists client authorId w = (Return false, w')
      /\ trace w' = (trace w ++ events)%list
      /\ requests w' = (requests w + AuthorsServiceClient.maxRetries client)%nat)
  /\ (exists w' : World,
         AuthorsServiceClient.getAuthor client authorId w = (Return None, w')
         /\ trace w' = (trace w ++ events)%list
         /\ requests w' = (requests w + AuthorsServiceClient.maxRetries client)%nat)
  /\ (forall (this : AuthorsServiceClient.t) (id : string) (w0 : World),
         (exists (b : bool) (w' : World),
             AuthorsServiceClient.authorExists this id w0 = (Return b, w'))
         /\ (exists (a : option AuthorData.t) (w' : World),
                AuthorsServiceClient.getAuthor this id w0 = (Return a, w')))
  /\ (let w1 := snd (AuthorsServiceClient.sleep 2000 (log (Get url) w)) in
      let w2 := snd (AuthorsServiceClient.sleep 4000 (log (Get url) w1)) in
      let w3 := log (Get url) w2 in
      AuthorsServiceClient.authorExists client authorId w = (Return false, w3)
      /\ AuthorsServiceClient.getAuthor client authorId w = (Return None, w3)
      /\ (exists e1 e2 e3 : Error,
             AuthorsServiceClient.get client ("/authors/" +:+ authorId) w
             = (Throw e1, log (Get url) w)
             /\ AuthorsServiceClient.get client ("/authors/" +:+ authorId) w1
                = (Throw e2, log (Get url) w1)
             /\ AuthorsServiceClient.get client ("/authors/" +:+ authorId) w2
                = (Throw e3, w3))
      /\ clock w1 = clock w + 2000
      /\ clock w2 = clock w1 + 4000
      /\ clock w3 = clock w + 6000
      /\ w3 = mkWorld (rows w) (uuid_gen w) (inserted w) (clock w + 6000)
                (remote w) (trace w ++ events)%list).
Proof.
  intros client url events Hfails.
  set (path := "/authors/" +:+ authorId).
  set (w1 := snd (AuthorsServiceClient.sleep 2000 (log (Get url) w))).
  set (w2 := snd (AuthorsServiceClient.sleep 4000 (log (Get url) w1))).
  set (w3 := log (Get url) w2).
  assert (Hfails1 : always_fails w1) by (intros k u; apply Hfails).
  assert (Hfails2 : always_fails w2) by (intros k u; apply Hfails).
  destruct (get_rejected client path w Hfails) as [e1 Hget1].
  destruct (get_rejected client path w1 Hfails1) as [e2 Hget2].
  destruct (get_rejected client path w2 Hfails2) as [e3 Hget3].
  assert (Hretry : AuthorsServiceClient.retryRequest client
                     (AuthorsServiceClient.get client path) 1 w = (Throw e3, w3)).
  { rewrite (retryRequest_retries client _ 1 w _ e1 Hget1) by (simpl; lia).
    change (AuthorsServiceClient.retryRequest client
              (AuthorsServiceClient.get client path) 2 w1 = (Throw e3, w3)).
    rewrite (retryRequest_retries client _ 2 w1 _ e2 Hget2) by (simpl; lia).
    change (AuthorsServiceClient.retryRequest client
              (AuthorsServiceClient.get client path) 3 w2 = (Throw e3, w3)).
    apply retryRequest_gives_up; [exact Hget3 | simpl; lia]. }
  assert (Hworld : w3 = mkWorld (rows w) (uuid_gen w) (inserted w) (clock w + 6000)
                         (remote w) (trace w ++ events)%list).
  { unfold w3, w2, w1, AuthorsServiceClient.sleep, log, set_clock.
    cbn [snd rows uuid_gen inserted clock remote trace].
    f_equal; [lia | rewrite <- !app_assoc; reflexivity]. }
  assert (Htrace : trace w3 = (trace w ++ events)%list) by (rewrite Hworld; reflexivity).
  assert (Hexists : AuthorsServiceClient.authorExists client authorId w
                    = (Return false, w3)).
  { unfold AuthorsServiceClient.authorExists, try_catch, bind.
    fold path. rewrite Hretry. reflexivity. }
  assert (Hauthor : AuthorsServiceClient.getAuthor client authorId w
                    = (Return None, w3)).
  { unfold AuthorsServiceClient.getAuthor, try_catch, bind.
    fold path. rewrite Hretry. reflexivity. }
  split; [| split; [| split]].
  - exists w3. split; [exact Hexists |]. split; [exact Htrace |].
    now rewrite (requests_app w w3 events Htrace).
  - exists w3. split; [exact Hauthor |]. split; [exact Htrace |].
    now rewrite (requests_app w w3 events Htrace).
  - intros this id w0. split.
    + apply authorExists_never_throws.
    + apply getAuthor_never_throws.
  - split; [exact Hexists |]. split; [exact Hauthor |].
    split; [exists e1, e2, e3; repeat split; assumption |].
    split; [reflexivity |]. split; [reflexivity |].
    split; [exact (f_equal clock Hworld) | exact Hworld].
Qed.

Lemma failing_remote_three_attempts_witness :
  AuthorsServiceClient.authorExists Sample.client "a1" (Sample.world DRAFT None)
  = (Return false,
     mkWorld (rows (Sample.world DRAFT None)) (uuid_gen (Sample.world DRAFT None))
       (inserted (Sample.world DRAFT None)) (5000 + 6000)
       (remote (Sample.world DRAFT None))
       [Get "http://authors-service:3001/authors/a1"; SetTimeout 2000;
        Get "http://authors-service:3001/authors/a1"; SetTimeout 4000;
        Get "http://authors-service:3001/authors/a1"])
  /\ requests (snd (AuthorsServiceClient.authorExists Sample.client "a1"
                      (Sample.world DRAFT None))) = 3%nat.
Proof.
  pose proof (failing_remote_three_attempts None 5000 "a1" (Sample.world DRAFT None))
    as H.
  cbv zeta in H.
  destruct H as ((w' & Hrun & _ & Hrequests) & _ & _ & Hexists & _ & _ & _ & _ & _ & Hworld).
  - intros k url. reflexivity.
  - unfold Sample.client. split.
    + rewrite Hexists, Hworld. reflexivity.
    + rewrite Hrun. exact Hrequests.
Defined.

(** *** Creation *)




(** What the request of the sample is stored as and answered with: the
    response repeats the keywords as they were sent, the row holds them
    split at every comma. *)
Example createPublication_sample :
  exists w3 : World,
    PublicationService.createPublication Sample.service Sample.submission
      Sample.world_vanishing
    = (Return (PublicationResponseDTO.mk "p2" "Blockchain Security" "Security analysis"
                 DRAFT Sample.author_uuid None None (Some "")
                 ["ledger, public"; "consensus"] 0 None true 11000 11000),
       w3)
    /\ rows w3 !! "p2"
       = Some (Publication.mk "p2" "Blockchain Security" "Security analysis" DRAFT
                 11000 11000 Sample.author_uuid None None (Some "")
                 (Some ["ledger"; " public"; "consensus"]) 0 None true).
Proof. eexists. split; vm_compute; reflexivity. Qed.

(** ** Further properties of the publications service *)

(** *** What decides a status change *)









(** *** What a status change writes *)

(** The row after [updateStatus], field by field: the status is the
    requested one, the update timestamp is the database time, the review
    notes are those supplied when they are a non-empty string and the
    stored ones otherwise, and every other column is as before. *)
Lemma updated_row_fields (status : PublicationStatus) (reviewNotes : option string)
      (now : Z) (p : Publication.t) :
  updated_row status reviewNotes now p
  = Publication.mk (Publication.id p) (Publication.title p) (Publication.content p)
      status (Publication.createdAt p) now (Publication.authorId p)
      (Publication.authorName p) (Publication.authorEmail p)
      (Publication.abstract_text p) (Publication.keywords p)
      (Publication.reviewCount p)
      (if JS.truthy_opt reviewNotes then reviewNotes else Publication.reviewNotes p)
      (Publication.isVisible p).
Proof.
  unfold updated_row, PublicationRepository.updateData.
  destruct reviewNotes as [n |]; [destruct n |]; reflexivity.
Qed.

(** A status change that succeeds replaces the one row by its update and
    returns it: the status and, when supplied, the review notes are
    written, the update timestamp is refreshed, every other column and
    every other row stay, and nothing else in the world moves. *)
Theorem changePublicationStatus_effect
        (this : PublicationService.t) (id : string)
        (dto : ChangePublicationStatusDTO.t) (w w' : World)
        (p : Publication.t) (d : PublicationResponseDTO.t) :
  rows w !! id = Some p ->
  PublicationService.changePublicationStatus this id dto w = (Return d, w') ->
  let p' :=
    Publication.mk (Publication.id p) (Publication.title p) (Publication.content p)
      (ChangePublicationStatusDTO.status dto) (Publication.createdAt p) (clock w)
      (Publication.authorId p) (Publication.authorName p) (Publication.authorEmail p)
      (Publication.abstract_text p) (Publication.keywords p)
      (Publication.reviewCount p)
      (if JS.truthy_opt (ChangePublicationStatusDTO.reviewNotes dto)
       then ChangePublicationStatusDTO.reviewNotes dto
       else Publication.reviewNotes p)
      (Publication.isVisible p) in
  d = PublicationMapper.toDTO p'
  /\ w' = set_rows (<[id := p']> (rows w)) w
  /\ rows w' !! id = Some p'
  /\ (forall k : string, k <> id -> rows w' !! k = rows w !! k)
  /\ ChangePublicationStatusDTO.status dto <> Publication.status p.
Proof.
  intros Hrow Hrun p'.
  assert (Hself : ChangePublicationStatusDTO.status dto <> Publication.status p).
  { intros Hsame. destruct (same_status_refused dto p Hsame) as [[e He] | Hcan];
      rewrite changePublicationStatus_cases, Hrow in Hrun.
    - rewrite He in Hrun. discriminate Hrun.
    - rewrite Hcan in Hrun.
      destruct (StateValidators.validateTransition _ _) as [[] | e];
        discriminate Hrun. }
  rewrite changePublicationStatus_cases, Hrow in Hrun.
  destruct (StateValidators.validateTransition _ _) as [[] | e]; [| discriminate].
  destruct (Publication.canTransitionToStatus _ _); [| discriminate].
  rewrite updated_row_fields in Hrun. fold p' in Hrun.
  injection Hrun as <- <-.
  repeat split.
  - cbn [rows set_rows]. apply lookup_insert_eq.
  - intros k Hk. cbn [rows set_rows]. now apply lookup_insert_ne.
  - exact Hself.
Qed.

Lemma changePublicationStatus_effect_witness :
  rows (snd (PublicationService.changePublicationStatus Sample.service "p1"
               (Sample.request REJECTED (Some "insufficient"))
               (Sample.world IN_REVIEW (Some "En revision")))) !! "p1"
  = Some (Publication.mk "p1" "Machine Learning Fundamentals" "Contenido" REJECTED
            1000 5000 "a1" (Some "Ada Lovelace") (Some "ada@example.org")
            (Some "") (Some []) 0 (Some "insufficient") true).
Proof.
  apply (changePublicationStatus_effect Sample.service "p1"
           (Sample.request REJECTED (Some "insufficient"))
           (Sample.world IN_REVIEW (Some "En revision"))
           _ (Sample.publication IN_REVIEW (Some "En revision"))
           (PublicationMapper.toDTO
              (Publication.mk "p1" "Machine Learning Fundamentals" "Contenido" REJECTED
                 1000 5000 "a1" (Some "Ada Lovelace") (Some "ada@example.org")
                 (Some "") (Some []) 0 (Some "insufficient") true))).
  - reflexivity.
  - vm_compute. reflexivity.
Defined.

(** *** Errors as the controller answers them *)

Lemma includes_app_r (a b needle : string) :
  JS.includes b needle = true -> JS.includes (a +:+ b) needle = true.
Proof.
  intros Hb. induction a as [| c a IH]; [exact Hb |].
  change (String.prefix needle (String c (a +:+ b)) || JS.includes (a +:+ b) needle
          = true).
  rewrite IH. apply orb_true_r.
Qed.

(** Every "... with id X not found" error is answered with 404, whatever
    the id. *)
Lemma handleError_not_found (what id : string) :
  PublicationController.handleError (mkError (what +:+ id +:+ " not found"))
  = PublicationController.mkErrorResponse 404 "NOT_FOUND"
      (what +:+ id +:+ " not found").
Proof.
  unfold PublicationController.handleError. cbn [message].
  rewrite (includes_app_r what (id +:+ " not found") "not found");
    [reflexivity | apply includes_app_r; reflexivity].
Qed.




(** The two answers for an id that names no row: 404 for a uuid, and 500
    for the id [p9], on which the query fails. *)
Example changePublicationStatus_absent_ids :
  (exists e : Error,
      PublicationService.changePublicationStatus Sample.service Sample.publication_uuid
        (Sample.request IN_REVIEW None) (Sample.world DRAFT None)
      = (Throw e, Sample.world DRAFT None)
      /\ PublicationController.handleError e
         = PublicationController.mkErrorResponse 404 "NOT_FOUND"
             "Publication with id 0b9a8c7d-6e5f-4a3b-8c2d-1e0f9a8b7c6d not found")
  /\ (exists e : Error,
         PublicationService.changePublicationStatus Sample.service "p9"
           (Sample.request IN_REVIEW None) (Sample.world DRAFT None)
         = (Throw e, Sample.world DRAFT None)
         /\ e = Postgres.invalid_uuid "p9"
         /\ PublicationController.handleError e
            = PublicationController.mkErrorResponse 500 "INTERNAL_ERROR"
                "An unexpected error occurred").
Proof.
  split; eexists; (split; [vm_compute; reflexivity |]).
  - vm_compute. reflexivity.
  - split; vm_compute; reflexivity.
Qed.

(** *** Editing, deleting and reading a publication *)

Lemma apply_asPartial (dto : UpdatePublicationDTO.t) (now : Z) (p : Publication.t) :
  PublicationRepository.apply (UpdatePublicationDTO.asPartial dto) now p
  = edited_row dto now p.
Proof. reflexivity. Qed.

(** The ways an edit ends, by the row the id reaches. *)
Lemma updatePublication_reaches
      (this : PublicationService.t) (id : string)
      (dto : UpdatePublicationDTO.t) (w : World) :
  PublicationService.updatePublication this id dto w =
  if PublicationRepository.id_ok id w
  then
    match rows w !! PublicationRepository.row_key id w with
    | None => (Throw (mkError ("Publication with id " +:+ id +:+ " not found")), w)
    | Some p =>
        if Publication.canBeEdited p
        then
          if Postgres.varchar_ok_opt 255 (UpdatePublicationDTO.title dto)
          then (Return (PublicationMapper.toDTO (edited_row dto (clock w) p)),
                set_rows (<[PublicationRepository.row_key id w
                            := edited_row dto (clock w) p]> (rows w)) w)
          else (Throw Postgres.value_too_long, w)
        else (Throw (mkError ("Publication cannot be edited in "
                              +:+ status_value (Publication.status p)
                              +:+ " status")), w)
    end
  else (Throw (Postgres.invalid_uuid id), w).
Proof.
  unfold PublicationService.updatePublication.
  unfold bind at 1. unfold PublicationRepository.findById at 1.
  destruct (PublicationRepository.id_ok id w) eqn:Hok; [| reflexivity].
  destruct (rows w !! PublicationRepository.row_key id w) as [p |] eqn:Hrow;
    [| reflexivity].
  destruct (Publication.canBeEdited p); [| reflexivity].
  cbn [negb]. unfold bind.
  assert (Hfit : Postgres.columns_ok (UpdatePublicationDTO.asPartial dto)
                 = Postgres.varchar_ok_opt 255 (UpdatePublicationDTO.title dto)).
  { unfold Postgres.columns_ok, UpdatePublicationDTO.asPartial.
    cbn [Partial.title Partial.authorName Partial.authorEmail Partial.authorId
           Postgres.varchar_ok_opt].
    now rewrite !andb_true_r. }
  destruct (Postgres.varchar_ok_opt 255 (UpdatePublicationDTO.title dto)) eqn:Hfits.
  - rewrite (update_reaches id _ w p Hok Hrow Hfit), apply_asPartial. reflexivity.
  - unfold PublicationRepository.update, PublicationRepository.repository_update, bind.
    rewrite Hok, Hrow, Hfit. reflexivity.
Qed.

(** The ways an edit ends. *)
Lemma updatePublication_cases
      (this : PublicationService.t) (id : string)
      (dto : UpdatePublicationDTO.t) (w : World) :
  PublicationService.updatePublication this id dto w =
  match rows w !! id with
  | Some p =>
      if Publication.canBeEdited p
      then
        if Postgres.varchar_ok_opt 255 (UpdatePublicationDTO.title dto)
        then (Return (PublicationMapper.toDTO (edited_row dto (clock w) p)),
              set_rows (<[id := edited_row dto (clock w) p]> (rows w)) w)
        else (Throw Postgres.value_too_long, w)
      else (Throw (mkError ("Publication cannot be edited in "
                            +:+ status_value (Publication.status p)
                            +:+ " status")), w)
  | None =>
      if Postgres.uuid_ok id
      then
        match rows w !! Postgres.uuid_out id with
        | Some p =>
            if Publication.canBeEdited p
            then
              if Postgres.varchar_ok_opt 255 (UpdatePublicationDTO.title dto)
              then (Return (PublicationMapper.toDTO (edited_row dto (clock w) p)),
                    set_rows (<[Postgres.uuid_out id := edited_row dto (clock w) p]>
                                (rows w)) w)
              else (Throw Postgres.value_too_long, w)
            else (Throw (mkError ("Publication cannot be edited in "
                                  +:+ status_value (Publication.status p)
                                  +:+ " status")), w)
        | None => (Throw (mkError ("Publication with id " +:+ id +:+ " not found")), w)
        end
      else (Throw (Postgres.invalid_uuid id), w)
  end.
Proof.
  rewrite updatePublication_reaches.
  unfold PublicationRepository.id_ok, PublicationRepository.row_key.
  destruct (rows w !! id) as [p |] eqn:Hrow.
  - rewrite Hrow. reflexivity.
  - destruct (Postgres.uuid_ok id); [| reflexivity].
    destruct (rows w !! Postgres.uuid_out id); reflexivity.
Qed.

(** The ways a deletion ends, by the row the id reaches. *)
Lemma deletePublication_reaches
      (this : PublicationService.t) (id : string) (w : World) :
  PublicationService.deletePublication this id w =
  if PublicationRepository.id_ok id w
  then
    match rows w !! PublicationRepository.row_key id w with
    | None => (Throw (mkError ("Publication with id " +:+ id +:+ " not found")), w)
    | Some p =>
        if bool_decide (Publication.status p = PUBLISHED)
        then (Throw (mkError "Cannot delete published publications"), w)
        else (Return tt,
              set_rows (delete (PublicationRepository.row_key id w) (rows w)) w)
    end
  else (Throw (Postgres.invalid_uuid id), w).
Proof.
  unfold PublicationService.deletePublication.
  unfold bind at 1. unfold PublicationRepository.findById at 1.
  destruct (PublicationRepository.id_ok id w) eqn:Hok; [| reflexivity].
  destruct (rows w !! PublicationRepository.row_key id w) as [p |] eqn:Hrow;
    [| reflexivity].
  destruct (bool_decide (Publication.status p = PUBLISHED)); [reflexivity |].
  unfold bind, PublicationRepository.delete, PublicationRepository.repository_delete,
    bind, ret.
  rewrite Hok, Hrow. reflexivity.
Qed.

(** The ways a deletion ends. *)
Lemma deletePublication_cases
      (this : PublicationService.t) (id : string) (w : World) :
  PublicationService.deletePublication this id w =
  match rows w !! id with
  | Some p =>
      if bool_decide (Publication.status p = PUBLISHED)
      then (Throw (mkError "Cannot delete published publications"), w)
      else (Return tt, set_rows (delete id (rows w)) w)
  | None =>
      if Postgres.uuid_ok id
      then
        match rows w !! Postgres.uuid_out id with
        | Some p =>
            if bool_decide (Publication.status p = PUBLISHED)
            then (Throw (mkError "Cannot delete published publications"), w)
            else (Return tt, set_rows (delete (Postgres.uuid_out id) (rows w)) w)
        | None => (Throw (mkError ("Publication with id " +:+ id +:+ " not found")), w)
        end
      else (Throw (Postgres.invalid_uuid id), w)
  end.
Proof.
  rewrite deletePublication_reaches.
  unfold PublicationRepository.id_ok, PublicationRepository.row_key.
  destruct (rows w !! id) as [p |] eqn:Hrow.
  - rewrite Hrow. reflexivity.
  - destruct (Postgres.uuid_ok id); [| reflexivity].
    destruct (rows w !! Postgres.uuid_out id); reflexivity.
Qed.

(** An edit is accepted on a draft or a publication in review only.  On
    any other status it throws the "cannot be edited" error before
    anything is handed to the repository, whatever the request holds; the
    controller answers with 400 INVALID_STATE, and nothing is written. *)
Theorem updatePublication_only_editable
        (this : PublicationService.t) (id : string)
        (dto : UpdatePublicationDTO.t) (w : World) (p : Publication.t) :
  rows w !! id = Some p ->
  (succeeds (PublicationService.updatePublication this id dto w) ->
   Publication.status p = DRAFT \/ Publication.status p = IN_REVIEW)
  /\ (Publication.status p <> DRAFT ->
      Publication.status p <> IN_REVIEW ->
      let e := mkError ("Publication cannot be edited in "
                        +:+ status_value (Publication.status p) +:+ " status") in
      PublicationService.updatePublication this id dto w = (Throw e, w)
      /\ PublicationController.handleError e
         = PublicationController.mkErrorResponse 400 "INVALID_STATE" (message e)).
Proof.
  intros Hrow. unfold succeeds.
  rewrite updatePublication_cases, Hrow. unfold Publication.canBeEdited.
  split.
  - destruct (Publication.status p); simpl; try (intros (d & w' & H); discriminate H);
      intros _; [left | right]; reflexivity.
  - intros Hdraft Hreview.
    destruct (Publication.status p); try contradiction; split; reflexivity.
Qed.

Lemma updatePublication_only_editable_witness :
  PublicationService.updatePublication Sample.service "p1"
    (UpdatePublicationDTO.mk (Some "Blockchain Security, revised") None None None None)
    (Sample.world APPROVED (Some "Aprobado"))
  = (Throw (mkError "Publication cannot be edited in APPROVED status"),
     Sample.world APPROVED (Some "Aprobado")).
Proof.
  apply (updatePublication_only_editable Sample.service "p1"
           (UpdatePublicationDTO.mk (Some "Blockchain Security, revised")
              None None None None)
           (Sample.world APPROVED (Some "Aprobado"))
           (Sample.publication APPROVED (Some "Aprobado"))).
  - reflexivity.
  - discriminate.
  - discriminate.
Defined.

(** A deletion succeeds exactly on a stored publication that is not
    published; the row is then gone and every other row stays.  On a
    published one it throws, nothing is removed, and the controller answers
    with 500 INTERNAL_ERROR. *)
Theorem deletePublication_unless_published
        (this : PublicationService.t) (id : string) (w : World) (p : Publication.t) :
  rows w !! id = Some p ->
  (succeeds (PublicationService.deletePublication this id w)
   <-> Publication.status p <> PUBLISHED)
  /\ (Publication.status p <> PUBLISHED ->
      exists w' : World,
        PublicationService.deletePublication this id w = (Return tt, w')
        /\ rows w' !! id = None
        /\ (forall k : string, k <> id -> rows w' !! k = rows w !! k))
  /\ (Publication.status p = PUBLISHED ->
      PublicationService.deletePublication this id w
      = (Throw (mkError "Cannot delete published publications"), w)
      /\ PublicationController.handleError
           (mkError "Cannot delete published publications")
         = PublicationController.mkErrorResponse 500 "INTERNAL_ERROR"
             "An unexpected error occurred").
Proof.
  intros Hrow. unfold succeeds. rewrite deletePublication_cases, Hrow.
  split; [| split].
  - destruct (decide (Publication.status p = PUBLISHED)) as [Hp | Hp].
    + rewrite bool_decide_eq_true_2 by assumption.
      split; [intros (a & w' & H); discriminate H | contradiction].
    + rewrite bool_decide_eq_false_2 by assumption.
      split; [intros _; assumption | intros _; do 2 eexists; reflexivity].
  - intros Hp. rewrite bool_decide_eq_false_2 by assumption.
    eexists. split; [reflexivity |]. cbn [rows set_rows]. split.
    + apply lookup_delete_eq.
    + intros k Hk. now apply lookup_delete_ne.
  - intros Hp. rewrite bool_decide_eq_true_2 by assumption.
    split; reflexivity.
Qed.

Lemma deletePublication_unless_published_witness :
  succeeds (PublicationService.deletePublication Sample.service "p1"
              (Sample.world REJECTED None)).
Proof.
  apply (deletePublication_unless_published Sample.service "p1"
           (Sample.world REJECTED None) (Sample.publication REJECTED None)).
  - reflexivity.
  - discriminate.
Defined.

(** *** Statistics *)

(** Counting after an insertion at a free key, and after a deletion. *)
Lemma rows_with_status_insert_new (m : gmap string Publication.t) (i : string)
      (x : Publication.t) (s : PublicationStatus) :
  m !! i = None ->
  rows_with_status (<[i := x]> m) s
  = (rows_with_status m s + (if bool_decide (Publication.status x = s) then 1 else 0))%nat.
Proof.
  intros Hfree. unfold rows_with_status. rewrite map_filter_insert. cbn [snd].
  case_decide as Hx.
  - rewrite Hx, map_size_insert_None; [lia |].
    apply map_lookup_filter_None. left. assumption.
  - apply not_true_is_false in Hx. rewrite Hx.
    rewrite delete_id by assumption. lia.
Qed.

Lemma rows_with_status_stored (m : gmap string Publication.t) (i : string)
      (x : Publication.t) (s : PublicationStatus) :
  m !! i = Some x ->
  rows_with_status m s
  = (rows_with_status (delete i m) s
     + (if bool_decide (Publication.status x = s) then 1 else 0))%nat.
Proof.
  intros Hrow. rewrite <- (rows_with_status_insert_new (delete i m) i x s).
  - now rewrite insert_delete_id.
  - apply lookup_delete_eq.
Qed.

Lemma rows_with_status_replace (m : gmap string Publication.t) (i : string)
      (x : Publication.t) (s : PublicationStatus) :
  rows_with_status (<[i := x]> m) s
  = (rows_with_status (delete i m) s
     + (if bool_decide (Publication.status x = s) then 1 else 0))%nat.
Proof.
  rewrite <- insert_delete_eq. apply rows_with_status_insert_new, lookup_delete_eq.
Qed.

Lemma rows_with_status_total (m : gmap string Publication.t) :
  (rows_with_status m DRAFT + rows_with_status m IN_REVIEW
   + rows_with_status m APPROVED + rows_with_status m PUBLISHED
   + rows_with_status m REJECTED)%nat = size m.
Proof.
  induction m as [| i x m Hfree IH] using map_ind.
  - unfold rows_with_status. rewrite !map_filter_empty, !map_size_empty. reflexivity.
  - rewrite !rows_with_status_insert_new, map_size_insert_None by assumption.
    rewrite <- IH. destruct (Publication.status x); simpl; lia.
Qed.

Lemma getStatistics_counts (this : PublicationService.t) (w : World) :
  PublicationService.getStatistics this w
  = (Return (fun key =>
               match key with
               | DRAFT => Z.of_nat (rows_with_status (rows w) DRAFT)
               | IN_REVIEW => Z.of_nat (rows_with_status (rows w) IN_REVIEW)
               | APPROVED => Z.of_nat (rows_with_status (rows w) APPROVED)
               | PUBLISHED => Z.of_nat (rows_with_status (rows w) PUBLISHED)
               | REJECTED => Z.of_nat (rows_with_status (rows w) REJECTED)
               end),
     w).
Proof. reflexivity. Qed.

Lemma getStatistics_reads (this : PublicationService.t) (w : World) :
  exists stats : PublicationStatus -> Z,
    PublicationService.getStatistics this w = (Return stats, w)
    /\ (forall s : PublicationStatus,
           stats s = Z.of_nat (rows_with_status (rows w) s)).
Proof.
  eexists. split; [apply getStatistics_counts |].
  intros s. destruct s; reflexivity.
Qed.

(** The statistics read the table without changing the world, and the
    five numbers add up to the number of stored publications. *)
Theorem getStatistics_total (this : PublicationService.t) (w : World) :
  exists stats : PublicationStatus -> Z,
    PublicationService.getStatistics this w = (Return stats, w)
    /\ (forall s : PublicationStatus,
           stats s = Z.of_nat (rows_with_status (rows w) s))
    /\ stats DRAFT + stats IN_REVIEW + stats APPROVED + stats PUBLISHED
       + stats REJECTED
       = Z.of_nat (size (rows w)).
Proof.
  destruct (getStatistics_reads this w) as (stats & Hrun & Hstats).
  exists stats. split; [exact Hrun |]. split; [exact Hstats |].
  rewrite !Hstats, <- rows_with_status_total. lia.
Qed.

(** A status change that succeeds moves one publication from the count of
    its old status to the count of the requested one and leaves the other
    three counts as they were. *)
Theorem changePublicationStatus_moves_one
        (this : PublicationService.t) (id : string)
        (dto : ChangePublicationStatusDTO.t) (w w' : World)
        (p : Publication.t) (d : PublicationResponseDTO.t) :
  rows w !! id = Some p ->
  PublicationService.changePublicationStatus this id dto w = (Return d, w') ->
  exists before after : PublicationStatus -> Z,
    PublicationService.getStatistics this w = (Return before, w)
    /\ PublicationService.getStatistics this w' = (Return after, w')
    /\ after (ChangePublicationStatusDTO.status dto)
       = before (ChangePublicationStatusDTO.status dto) + 1
    /\ after (Publication.status p) = before (Publication.status p) - 1
    /\ (forall s : PublicationStatus,
           s <> ChangePublicationStatusDTO.status dto ->
           s <> Publication.status p ->
           after s = before s).
Proof.
  intros Hrow Hrun.
  assert (Hself : ChangePublicationStatusDTO.status dto <> Publication.status p).
  { intros Hsame. destruct (same_status_refused dto p Hsame) as [[e He] | Hcan];
      rewrite changePublicationStatus_cases, Hrow in Hrun.
    - rewrite He in Hrun. discriminate Hrun.
    - rewrite Hcan in Hrun.
      destruct (StateValidators.validateTransition _ _) as [[] | e];
        discriminate Hrun. }
  rewrite changePublicationStatus_cases, Hrow in Hrun.
  destruct (StateValidators.validateTransition _ _) as [[] | e]; [| discriminate].
  destruct (Publication.canTransitionToStatus _ _); [| discriminate].
  injection Hrun as _ <-.
  assert (Hcount : forall s,
             Z.of_nat (rows_with_status
                         (<[id := updated_row (ChangePublicationStatusDTO.status dto)
                                    (ChangePublicationStatusDTO.reviewNotes dto)
                                    (clock w) p]> (rows w)) s)
             = Z.of_nat (rows_with_status (rows w) s)
               + (if bool_decide (ChangePublicationStatusDTO.status dto = s)
                  then 1 else 0)
               - (if bool_decide (Publication.status p = s) then 1 else 0)).
  { intros s. rewrite rows_with_status_replace, (rows_with_status_stored _ id p s Hrow).
    rewrite updated_row_status.
    destruct (bool_decide (ChangePublicationStatusDTO.status dto = s)),
      (bool_decide (Publication.status p = s)); lia. }
  destruct (getStatistics_reads this w) as (before & Hbefore & Hb).
  destruct (getStatistics_reads this
              (set_rows (<[id := updated_row (ChangePublicationStatusDTO.status dto)
                                   (ChangePublicationStatusDTO.reviewNotes dto)
                                   (clock w) p]> (rows w)) w))
    as (after & Hafter & Ha).
  cbn [rows set_rows] in Ha.
  exists before, after. split; [exact Hbefore |]. split; [exact Hafter |].
  split; [| split].
  - rewrite Ha, Hb, Hcount.
    rewrite bool_decide_eq_true_2 by reflexivity.
    rewrite bool_decide_eq_false_2 by congruence. lia.
  - rewrite Ha, Hb, Hcount.
    rewrite (bool_decide_eq_true_2 (Publication.status p = Publication.status p))
      by reflexivity.
    rewrite bool_decide_eq_false_2 by congruence. lia.
  - intros s Hnew Hold. rewrite Ha, Hb, Hcount.
    rewrite !bool_decide_eq_false_2 by congruence. lia.
Qed.

Lemma changePublicationStatus_moves_one_witness :
  exists before after : PublicationStatus -> Z,
    PublicationService.getStatistics Sample.service (Sample.world APPROVED None)
    = (Return before, Sample.world APPROVED None)
    /\ PublicationService.getStatistics Sample.service
         (snd (PublicationService.changePublicationStatus Sample.service "p1"
                 (Sample.request PUBLISHED None) (Sample.world APPROVED None)))
       = (Return after,
          snd (PublicationService.changePublicationStatus Sample.service "p1"
                 (Sample.request PUBLISHED None) (Sample.world APPROVED None)))
    /\ after PUBLISHED = before PUBLISHED + 1
    /\ after APPROVED = before APPROVED - 1
    /\ (forall s : PublicationStatus,
           s <> PUBLISHED -> s <> APPROVED -> after s = before s).
Proof.
  eapply (changePublicationStatus_moves_one Sample.service "p1"
            (Sample.request PUBLISHED None) (Sample.world APPROVED None) _
            (Sample.publication APPROVED None)).
  - reflexivity.
  - vm_compute. reflexivity.
Defined.

(** *** More on the authors-service client *)

Lemma requests_log_Get (url : string) (w : World) :
  requests (log (Get url) w) = S (requests w).
Proof.
  unfold requests, log. cbn [trace].
  rewrite List.filter_app, List.length_app. cbn. lia.
Qed.

Lemma requests_sleep (delay : Z) (w : World) :
  requests (snd (AuthorsServiceClient.sleep delay w)) = requests w.
Proof.
  unfold requests, AuthorsServiceClient.sleep, log. cbn [snd trace set_clock].
  rewrite List.filter_app, List.length_app. cbn. lia.
Qed.

Section RetryAnyRemote.

Variable this : AuthorsServiceClient.t.
Variable path : string.

Local Abbreviation url := (AuthorsServiceClient.baseURL this +:+ path).

(** One [get] is one request, whatever comes back. *)
Lemma get_logs (w : World) :
  snd (AuthorsServiceClient.get this path w) = log (Get url) w.
Proof.
  unfold AuthorsServiceClient.get.
  destruct (remote w (requests w) url) as [code body |]; [| reflexivity].
  destruct ((200 <=? code) && (code <? 300)); reflexivity.
Qed.

Lemma get_accepted (w : World) (code : Z) (body : option AuthorData.t) :
  remote w (requests w) url = HttpReply code body ->
  200 <= code < 300 ->
  AuthorsServiceClient.get this path w
  = (Return (AuthorsServiceClient.mkResponse code body), log (Get url) w).
Proof.
  intros Hreply [Hlo Hhi]. unfold AuthorsServiceClient.get. rewrite Hreply.
  apply Z.leb_le in Hlo. apply Z.ltb_lt in Hhi. now rewrite Hlo, Hhi.
Qed.

Lemma get_rejected_reply (w : World) :
  rejected (remote w (requests w) url) = true ->
  exists e : Error,
    AuthorsServiceClient.get this path w = (Throw e, log (Get url) w).
Proof.
  intros Hrej. unfold AuthorsServiceClient.get.
  destruct (remote w (requests w) url) as [code body |]; simpl in Hrej.
  - apply negb_true_iff in Hrej. rewrite Hrej. eexists; reflexivity.
  - eexists; reflexivity.
Qed.

(** Whatever the remote does, [retryRequest] touches neither the table nor
    the uuid generator, and sends at least one request and at most one per
    attempt that is left. *)
Lemma retryRequest_frame (more attempt : nat) (w : World) :
  (AuthorsServiceClient.maxRetries this - attempt = more)%nat ->
  forall (outcome : result AuthorsServiceClient.AxiosResponse) (w' : World),
    AuthorsServiceClient.retryRequest this (AuthorsServiceClient.get this path) attempt w
    = (outcome, w') ->
    rows w' = rows w /\ uuid_gen w' = uuid_gen w /\ inserted w' = inserted w
    /\ remote w' = remote w
    /\ (requests w + 1 <= requests w' <= requests w + S more)%nat.
Proof.
  revert attempt w.
  induction more as [| more IH]; intros attempt w Hmore outcome w' Hrun;
    destruct (AuthorsServiceClient.get this path w) as [[r | e] w1] eqn:Hget;
    pose proof (get_logs w) as Hw1; rewrite Hget in Hw1; cbn [snd] in Hw1; subst w1.
  - rewrite (retryRequest_returns this _ attempt w _ r Hget) in Hrun.
    injection Hrun as <- <-. rewrite requests_log_Get. repeat split; lia.
  - rewrite (retryRequest_gives_up this _ attempt w _ e Hget) in Hrun by lia.
    injection Hrun as <- <-. rewrite requests_log_Get. repeat split; lia.
  - rewrite (retryRequest_returns this _ attempt w _ r Hget) in Hrun.
    injection Hrun as <- <-. rewrite requests_log_Get. repeat split; lia.
  - rewrite (retryRequest_retries this _ attempt w _ e Hget) in Hrun by lia.
    apply IH in Hrun; [| lia].
    rewrite requests_sleep, requests_log_Get in Hrun.
    destruct Hrun as (Hrows & Huuid & Hins & Hremote & Hreq).
    repeat split; try assumption; lia.
Qed.

(** When the first [failures] attempts from the current one are rejected
    and the next reply is accepted, [retryRequest] returns that reply
    after one request and one timer per failure and the accepted request. *)
Lemma retryRequest_recovers (failures attempt : nat) (w : World)
      (code : Z) (body : option AuthorData.t) :
  (forall i : nat, (i < failures)%nat ->
                   rejected (remote w (requests w + i)%nat url) = true) ->
  remote w (requests w + failures)%nat url = HttpReply code body ->
  200 <= code < 300 ->
  (failures = 0 \/ attempt + failures <= AuthorsServiceClient.maxRetries this)%nat ->
  exists w' : World,
    AuthorsServiceClient.retryRequest this (AuthorsServiceClient.get this path) attempt w
    = (Return (AuthorsServiceClient.mkResponse code body), w')
    /\ trace w' = (trace w ++ failing_events url attempt failures)%list.
Proof.
  revert attempt w.
  induction failures as [| failures IH]; intros attempt w Hfail Hok Hcode Hroom.
  - rewrite Nat.add_0_r in Hok.
    exists (log (Get url) w). split; [| reflexivity].
    apply retryRequest_returns, get_accepted; assumption.
  - destruct (get_rejected_reply w) as [e Hget].
    { rewrite <- (Nat.add_0_r (requests w)). apply Hfail. lia. }
    rewrite (retryRequest_retries this _ attempt w _ e Hget) by lia.
    destruct (IH (attempt + 1)%nat
                 (snd (AuthorsServiceClient.sleep
                         (AuthorsServiceClient.backoff attempt) (log (Get url) w))))
      as (w' & Hrun & Htrace).
    + intros i Hi. rewrite requests_sleep, requests_log_Get.
      cbn [remote snd AuthorsServiceClient.sleep set_clock log].
      replace (S (requests w) + i)%nat with (requests w + S i)%nat by lia.
      apply Hfail. lia.
    + rewrite requests_sleep, requests_log_Get.
      cbn [remote snd AuthorsServiceClient.sleep set_clock log].
      replace (S (requests w) + failures)%nat with (requests w + S failures)%nat by lia.
      exact Hok.
    + exact Hcode.
    + right. lia.
    + exists w'. split; [exact Hrun |].
      rewrite Htrace. cbn [snd AuthorsServiceClient.sleep trace set_clock log].
      rewrite <- !app_assoc. cbn [app failing_events].
      now rewrite Nat.add_1_r.
Qed.

End RetryAnyRemote.

Lemma failing_events_requests (url : string) (attempt more : nat) :
  List.length (List.filter is_get (failing_events url attempt more)) = S more.
Proof.
  revert attempt. induction more as [| more IH]; intros attempt; [reflexivity |].
  cbn [failing_events List.filter is_get List.length]. now rewrite IH.
Qed.

(** The two lookups stop at the first reply that is accepted.  When the
    first [failures] replies are rejected, [failures] being below the
    retry limit, and the next one is a 2xx reply, [authorExists] answers
    whether that status is 200 and [getAuthor] returns its data, after
    [failures + 1] requests with the back-off timers in between. *)
Theorem lookups_recover
        (this : AuthorsServiceClient.t) (authorId : string) (failures : nat)
        (w : World) (code : Z) (body : option AuthorData.t) :
  let url := AuthorsServiceClient.baseURL this +:+ "/authors/" +:+ authorId in
  (failures < AuthorsServiceClient.maxRetries this)%nat ->
  (forall i : nat, (i < failures)%nat ->
                   rejected (remote w (requests w + i)%nat url) = true) ->
  remote w (requests w + failures)%nat url = HttpReply code body ->
  200 <= code < 300 ->
  exists w' : World,
    AuthorsServiceClient.authorExists this authorId w = (Return (code =? 200), w')
    /\ AuthorsServiceClient.getAuthor this authorId w = (Return body, w')
    /\ trace w' = (trace w ++ failing_events url 1 failures)%list
    /\ requests w' = (requests w + failures + 1)%nat.
Proof.
  intros url Hroom Hfail Hok Hcode.
  destruct (retryRequest_recovers this ("/authors/" +:+ authorId) failures 1 w code body
              Hfail Hok Hcode) as (w' & Hrun & Htrace); [right; lia |].
  exists w'. split; [| split; [| split]].
  - unfold AuthorsServiceClient.authorExists, try_catch, bind. now rewrite Hrun.
  - unfold AuthorsServiceClient.getAuthor, try_catch, bind. now rewrite Hrun.
  - exact Htrace.
  - rewrite (requests_app w w' _ Htrace), failing_events_requests. lia.
Qed.

Lemma lookups_recover_witness :
  exists w' : World,
    AuthorsServiceClient.authorExists Sample.client "a1"
      (Sample.world_with DRAFT None Sample.recovering)
    = (Return (200 =? 200), w')
    /\ AuthorsServiceClient.getAuthor Sample.client "a1"
         (Sample.world_with DRAFT None Sample.recovering)
       = (Return (Some (AuthorData.mk "a1" "Ada" "Lovelace" "ada@example.org" None)),
          w')
    /\ trace w'
       = (trace (Sample.world_with DRAFT None Sample.recovering)
          ++ failing_events
               (AuthorsServiceClient.baseURL Sample.client +:+ "/authors/" +:+ "a1")
               1 1)%list
    /\ requests w'
       = (requests (Sample.world_with DRAFT None Sample.recovering) + 1 + 1)%nat.
Proof.
  apply (lookups_recover Sample.client "a1" 1
           (Sample.world_with DRAFT None Sample.recovering) 200
           (Some (AuthorData.mk "a1" "Ada" "Lovelace" "ada@example.org" None))).
  - vm_compute. lia.
  - intros i Hi. assert (i = 0%nat) as -> by lia. reflexivity.
  - reflexivity.
  - lia.
Defined.

(** Whatever the remote does, each lookup returns a value, leaves the
    table alone, and sends at least one request and at most as many as the
    retry limit (one when the limit is zero). *)
Theorem lookups_request_bound
        (this : AuthorsServiceClient.t) (authorId : string) (w : World) :
  (exists (b : bool) (w' : World),
      AuthorsServiceClient.authorExists this authorId w = (Return b, w')
      /\ rows w' = rows w
      /\ (requests w + 1 <= requests w'
          <= requests w + Nat.max 1 (AuthorsServiceClient.maxRetries this))%nat)
  /\ (exists (a : option AuthorData.t) (w' : World),
         AuthorsServiceClient.getAuthor this authorId w = (Return a, w')
         /\ rows w' = rows w
         /\ (requests w + 1 <= requests w'
             <= requests w + Nat.max 1 (AuthorsServiceClient.maxRetries this))%nat).
Proof.
  destruct (AuthorsServiceClient.retryRequest this
              (AuthorsServiceClient.get this ("/authors/" +:+ authorId)) 1 w)
    as [outcome w'] eqn:Hrun.
  destruct (retryRequest_frame this ("/authors/" +:+ authorId) _ 1 w eq_refl
              outcome w' Hrun) as (Hrows & _ & _ & _ & Hreq).
  split.
  - unfold AuthorsServiceClient.authorExists, try_catch, bind. rewrite Hrun.
    destruct outcome as [response | e]; do 2 eexists;
      (split; [reflexivity | split; [exact Hrows | lia]]).
  - unfold AuthorsServiceClient.getAuthor, try_catch, bind. rewrite Hrun.
    destruct outcome as [response | e]; do 2 eexists;
      (split; [reflexivity | split; [exact Hrows | lia]]).
Qed.

(** The health check sends exactly one request and sets no timer, never
    throws, and answers [true] exactly when the reply has status 200. *)
Theorem healthCheck_single_request (this : AuthorsServiceClient.t) (w : World) :
  let url := AuthorsServiceClient.baseURL this +:+ "/health" in
  exists b : bool,
    AuthorsServiceClient.healthCheck this w = (Return b, log (Get url) w)
    /\ (b = true <-> exists body, remote w (requests w) url = HttpReply 200 body).
Proof.
  intros url. unfold AuthorsServiceClient.healthCheck, try_catch, bind,
                AuthorsServiceClient.get, ret.
  fold url. destruct (remote w (requests w) url) as [code body |] eqn:Hreply.
  - destruct ((200 <=? code) && (code <? 300)) eqn:Hcode.
    + exists (code =? 200). split; [reflexivity |].
      cbn [AuthorsServiceClient.status]. rewrite Z.eqb_eq. split.
      * intros ->. eexists; reflexivity.
      * intros (body' & [= -> _]). reflexivity.
    + exists false. split; [reflexivity |]. split; [discriminate |].
      intros (body' & [= -> _]). discriminate Hcode.
  - exists false. split; [reflexivity |]. split; [discriminate |].
    intros (body' & H). discriminate H.
Qed.

(** The lookups leave the table and the uuid generator alone. *)
Lemma authorExists_frame (this : AuthorsServiceClient.t) (authorId : string)
      (w w' : World) (b : result bool) :
  AuthorsServiceClient.authorExists this authorId w = (b, w') ->
  rows w' = rows w /\ uuid_gen w' = uuid_gen w /\ inserted w' = inserted w.
Proof.
  unfold AuthorsServiceClient.authorExists, try_catch, bind.
  destruct (AuthorsServiceClient.retryRequest this _ 1 w) as [outcome w1] eqn:Hrun.
  destruct (retryRequest_frame this _ _ 1 w eq_refl outcome w1 Hrun)
    as (Hrows & Huuid & Hins & _).
  destruct outcome; intros [= _ <-]; auto.
Qed.

Lemma getAuthor_frame (this : AuthorsServiceClient.t) (authorId : string)
      (w w' : World) (a : result (option AuthorData.t)) :
  AuthorsServiceClient.getAuthor this authorId w = (a, w') ->
  rows w' = rows w /\ uuid_gen w' = uuid_gen w /\ inserted w' = inserted w.
Proof.
  unfold AuthorsServiceClient.getAuthor, try_catch, bind.
  destruct (AuthorsServiceClient.retryRequest this _ 1 w) as [outcome w1] eqn:Hrun.
  destruct (retryRequest_frame this _ _ 1 w eq_refl outcome w1 Hrun)
    as (Hrows & Huuid & Hins & _).
  destruct outcome; intros [= _ <-]; auto.
Qed.

(** *** Creating a publication *)

(** How a creation ends, by the answers of the two lookups and of the
    database. *)
Lemma createPublication_cases
      (this : PublicationService.t) (dto : CreatePublicationDTO.t) (w : World) :
  PublicationService.createPublication this dto w =
  if negb (JS.truthy (CreatePublicationDTO.title dto))
     || negb (JS.truthy (CreatePublicationDTO.content dto))
     || negb (JS.truthy (CreatePublicationDTO.authorId dto))
  then (Throw (mkError "title, content, and authorId are required"), w)
  else
    match AuthorsServiceClient.authorExists
            (PublicationService.authorsServiceClient this)
            (CreatePublicationDTO.authorId dto) w with
    | (Throw e, w1) => (Throw e, w1)
    | (Return false, w1) =>
        (Throw (mkError ("Author with id " +:+ CreatePublicationDTO.authorId dto
                         +:+ " not found")), w1)
    | (Return true, w1) =>
        match AuthorsServiceClient.getAuthor
                (PublicationService.authorsServiceClient this)
                (CreatePublicationDTO.authorId dto) w1 with
        | (Throw e, w2) => (Throw e, w2)
        | (Return authorData, w2) =>
            if Postgres.columns_ok (new_publication dto authorData)
            then
              (Return (PublicationMapper.toDTO (new_entity dto authorData w2)),
               set_inserted (S (inserted w2))
                 (set_rows (<[uuid_gen w2 (inserted w2)
                              := PublicationRepository.stored_row
                                   (new_entity dto authorData w2)]> (rows w2)) w2))
            else (Throw (Postgres.column_error (new_publication dto authorData)), w2)
        end
    end.
Proof.
  unfold PublicationService.createPublication.
  destruct (negb (JS.truthy (CreatePublicationDTO.title dto))
            || negb (JS.truthy (CreatePublicationDTO.content dto))
            || negb (JS.truthy (CreatePublicationDTO.authorId dto))); [reflexivity |].
  unfold bind at 1.
  destruct (AuthorsServiceClient.authorExists _ _ w) as [[[] | e] w1];
    [| reflexivity | reflexivity].
  cbn [negb]. unfold bind at 1.
  destruct (AuthorsServiceClient.getAuthor _ _ w1) as [[authorData | e] w2];
    [| reflexivity].
  unfold bind, PublicationRepository.create, PublicationRepository.repository_save, ret.
  destruct authorData as [a |];
    cbn [Partial.set_author Partial.title Partial.content Partial.status Partial.authorId];
    match goal with
    | |- context [Postgres.columns_ok ?data] =>
        change data with (new_publication dto (Some a))
        || change data with (new_publication dto None)
    end;
    destruct (Postgres.columns_ok _); reflexivity.
Qed.


(** A creation request with an empty title, body or author id is refused
    before anything happens: no request is sent, no row is written, and
    the controller answers with 400 VALIDATION_ERROR. *)
Theorem createPublication_required
        (this : PublicationService.t) (dto : CreatePublicationDTO.t) (w : World) :
  CreatePublicationDTO.title dto = "" \/ CreatePublicationDTO.content dto = ""
  \/ CreatePublicationDTO.authorId dto = "" ->
  PublicationService.createPublication this dto w
  = (Throw (mkError "title, content, and authorId are required"), w)
  /\ PublicationController.handleError
       (mkError "title, content, and authorId are required")
     = PublicationController.mkErrorResponse 400 "VALIDATION_ERROR"
         "title, content, and authorId are required".
Proof.
  intros Hempty. split; [| reflexivity].
  rewrite createPublication_cases.
  destruct Hempty as [-> | [-> | ->]]; cbn [JS.truthy negb orb];
    rewrite ?orb_true_r; reflexivity.
Qed.

Lemma createPublication_required_witness :
  PublicationService.createPublication Sample.service
    (CreatePublicationDTO.mk "Blockchain Security" "" None "a1" None)
    Sample.world_vanishing
  = (Throw (mkError "title, content, and authorId are required"),
     Sample.world_vanishing).
Proof.
  apply (createPublication_required Sample.service
           (CreatePublicationDTO.mk "Blockchain Security" "" None "a1" None)
           Sample.world_vanishing).
  right. left. reflexivity.
Defined.

(** When the existence check answers [false], creation throws the
    "author not found" error, which the controller answers with 404, and
    no row is written.  An authors service that fails every attempt has
    this effect: after one request per allowed attempt, creation reports
    the author as not found. *)
Theorem createPublication_author_not_confirmed
        (this : PublicationService.t) (dto : CreatePublicationDTO.t) (w : World) :
  let client := PublicationService.authorsServiceClient this in
  let authorId := CreatePublicationDTO.authorId dto in
  let e := mkError ("Author with id " +:+ authorId +:+ " not found") in
  JS.truthy (CreatePublicationDTO.title dto) = true ->
  JS.truthy (CreatePublicationDTO.content dto) = true ->
  JS.truthy authorId = true ->
  (forall w1 : World,
      AuthorsServiceClient.authorExists client authorId w = (Return false, w1) ->
      PublicationService.createPublication this dto w = (Throw e, w1)
      /\ rows w1 = rows w /\ inserted w1 = inserted w)
  /\ (always_fails w ->
      exists w1 : World,
        PublicationService.createPublication this dto w = (Throw e, w1)
        /\ rows w1 = rows w
        /\ trace w1
           = (trace w
              ++ failing_events
                   (AuthorsServiceClient.baseURL client +:+ "/authors/" +:+ authorId)
                   1 (AuthorsServiceClient.maxRetries client - 1))%list)
  /\ PublicationController.handleError e
     = PublicationController.mkErrorResponse 404 "NOT_FOUND" (message e).
Proof.
  intros client authorId e Htitle Hcontent Hauthor.
  assert (Hcases := createPublication_cases this dto w).
  rewrite Htitle, Hcontent in Hcases. fold authorId in Hcases.
  rewrite Hauthor in Hcases. cbn [negb orb] in Hcases. fold client in Hcases.
  split; [| split].
  - intros w1 Hexists. rewrite Hcases, Hexists. split; [reflexivity |].
    destruct (authorExists_frame client authorId w w1 _ Hexists) as (Hr & _ & Hi).
    split; assumption.
  - intros Hfails.
    destruct (retryRequest_always_fails client ("/authors/" +:+ authorId)
                (AuthorsServiceClient.maxRetries client - 1) 1 w Hfails eq_refl)
      as (e' & w1 & Hretry & Htrace & Hrows).
    exists w1. rewrite Hcases.
    unfold AuthorsServiceClient.authorExists, try_catch, bind. rewrite Hretry.
    cbn [ret]. repeat split; assumption.
  - apply handleError_not_found.
Qed.

Lemma createPublication_author_not_confirmed_witness :
  exists w1 : World,
    PublicationService.createPublication Sample.service Sample.creation
      (Sample.world DRAFT None)
    = (Throw (mkError "Author with id a1 not found"), w1)
    /\ rows w1 = rows (Sample.world DRAFT None)
    /\ trace w1
       = (trace (Sample.world DRAFT None)
          ++ failing_events "http://authors-service:3001/authors/a1" 1 2)%list.
Proof.
  apply (createPublication_author_not_confirmed Sample.service Sample.creation
           (Sample.world DRAFT None)).
  - reflexivity.
  - reflexivity.
  - reflexivity.
  - intros k url. reflexivity.
Defined.






(** *** Unknown ids and published publications *)

(** For an id that is a uuid and reaches no row (none is stored under the
    id as it is written, none under its output form), a status change, an
    edit, a deletion and a read all throw the same "not found" error,
    write nothing, send nothing, and are answered with 404. *)
Theorem unknown_id_not_found
        (this : PublicationService.t) (id : string) (w : World) :
  Postgres.uuid_ok id = true ->
  rows w !! id = None ->
  rows w !! Postgres.uuid_out id = None ->
  let e := mkError ("Publication with id " +:+ id +:+ " not found") in
  (forall dto, PublicationService.changePublicationStatus this id dto w = (Throw e, w))
  /\ (forall dto, PublicationService.updatePublication this id dto w = (Throw e, w))
  /\ PublicationService.deletePublication this id w = (Throw e, w)
  /\ (forall includeAuthor,
         PublicationService.getPublicationById this id includeAuthor w = (Throw e, w))
  /\ PublicationController.handleError e
     = PublicationController.mkErrorResponse 404 "NOT_FOUND" (message e).
Proof.
  intros Hid Hrow Hcanon e. split; [| split; [| split; [| split]]].
  - intros dto. now rewrite changePublicationStatus_cases, Hrow, Hid, Hcanon.
  - intros dto. now rewrite updatePublication_cases, Hrow, Hid, Hcanon.
  - now rewrite deletePublication_cases, Hrow, Hid, Hcanon.
  - intros includeAuthor.
    destruct (row_key_absent id w Hrow) as [Hok Hkey].
    unfold PublicationService.getPublicationById, bind, PublicationRepository.findById.
    now rewrite Hok, Hid, Hkey, Hcanon.
  - apply handleError_not_found.
Qed.

Lemma unknown_id_not_found_witness :
  PublicationService.deletePublication Sample.service Sample.publication_uuid
    (Sample.world DRAFT None)
  = (Throw (mkError "Publication with id 0b9a8c7d-6e5f-4a3b-8c2d-1e0f9a8b7c6d not found"),
     Sample.world DRAFT None)
  /\ PublicationService.getPublicationById Sample.service Sample.publication_uuid true
       (Sample.world DRAFT None)
     = (Throw (mkError "Publication with id 0b9a8c7d-6e5f-4a3b-8c2d-1e0f9a8b7c6d not found"),
        Sample.world DRAFT None).
Proof.
  split;
    apply (unknown_id_not_found Sample.service Sample.publication_uuid
             (Sample.world DRAFT None)); reflexivity.
Defined.

(** An id that is stored under no key and is not a uuid: the query of
    every entry point fails with the error of the database, nothing is
    written, and nothing is sent. *)
Theorem malformed_id_query_fails
        (this : PublicationService.t) (id : string) (w : World) :
  Postgres.uuid_ok id = false ->
  rows w !! id = None ->
  let e := Postgres.invalid_uuid id in
  (forall dto, PublicationService.changePublicationStatus this id dto w = (Throw e, w))
  /\ (forall dto, PublicationService.updatePublication this id dto w = (Throw e, w))
  /\ PublicationService.deletePublication this id w = (Throw e, w)
  /\ (forall includeAuthor,
         PublicationService.getPublicationById this id includeAuthor w = (Throw e, w)).
Proof.
  intros Hid Hrow e. split; [| split; [| split]].
  - intros dto. now rewrite changePublicationStatus_cases, Hrow, Hid.
  - intros dto. now rewrite updatePublication_cases, Hrow, Hid.
  - now rewrite deletePublication_cases, Hrow, Hid.
  - intros includeAuthor.
    destruct (row_key_absent id w Hrow) as [Hok Hkey].
    unfold PublicationService.getPublicationById, bind, PublicationRepository.findById.
    now rewrite Hok, Hid.
Qed.

Lemma malformed_id_query_fails_witness :
  PublicationService.getPublicationById Sample.service "p9" true
    (Sample.world DRAFT None)
  = (Throw (Postgres.invalid_uuid "p9"), Sample.world DRAFT None)
  /\ PublicationService.deletePublication Sample.service "p9" (Sample.world DRAFT None)
     = (Throw (Postgres.invalid_uuid "p9"), Sample.world DRAFT None).
Proof.
  split;
    apply (malformed_id_query_fails Sample.service "p9" (Sample.world DRAFT None));
    reflexivity.
Defined.

Lemma published_no_edge (p : Publication.t) (s : PublicationStatus) :
  Publication.status p = PUBLISHED -> Publication.canTransitionToStatus p s = false.
Proof.
  intros Hp. unfold Publication.canTransitionToStatus. now rewrite Hp.
Qed.

(** A published publication is never changed or removed: whatever id a
    status change, an edit or a deletion is aimed at, and whatever the
    request holds, the published row is stored afterwards exactly as
    before. *)
Theorem published_rows_stay
        (this : PublicationService.t) (k : string) (w : World) (p : Publication.t) :
  rows w !! k = Some p ->
  Publication.status p = PUBLISHED ->
  forall id : string,
    (forall dto,
        rows (snd (PublicationService.changePublicationStatus this id dto w)) !! k
        = Some p)
    /\ (forall dto,
           rows (snd (PublicationService.updatePublication this id dto w)) !! k
           = Some p)
    /\ rows (snd (PublicationService.deletePublication this id w)) !! k = Some p.
Proof.
  intros Hrow Hp id. split; [| split].
  - intros dto. rewrite changePublicationStatus_reaches.
    destruct (PublicationRepository.id_ok id w); [| exact Hrow].
    destruct (decide (PublicationRepository.row_key id w = k)) as [-> | Hne].
    + rewrite Hrow, (published_no_edge p _ Hp).
      destruct (StateValidators.validateTransition _ _) as [[] | e]; exact Hrow.
    + destruct (rows w !! PublicationRepository.row_key id w) as [q |]; [| exact Hrow].
      destruct (StateValidators.validateTransition _ _) as [[] | e]; [| exact Hrow].
      destruct (Publication.canTransitionToStatus _ _); [| exact Hrow].
      cbn [snd rows set_rows]. now rewrite lookup_insert_ne.
  - intros dto. rewrite updatePublication_reaches.
    destruct (PublicationRepository.id_ok id w); [| exact Hrow].
    destruct (decide (PublicationRepository.row_key id w = k)) as [-> | Hne].
    + rewrite Hrow. unfold Publication.canBeEdited. rewrite Hp. exact Hrow.
    + destruct (rows w !! PublicationRepository.row_key id w) as [q |]; [| exact Hrow].
      destruct (Publication.canBeEdited q); [| exact Hrow].
      destruct (Postgres.varchar_ok_opt _ _); [| exact Hrow].
      cbn [snd rows set_rows]. now rewrite lookup_insert_ne.
  - rewrite deletePublication_reaches.
    destruct (PublicationRepository.id_ok id w); [| exact Hrow].
    destruct (decide (PublicationRepository.row_key id w = k)) as [-> | Hne].
    + rewrite Hrow, bool_decide_eq_true_2 by assumption. exact Hrow.
    + destruct (rows w !! PublicationRepository.row_key id w) as [q |]; [| exact Hrow].
      destruct (bool_decide _); [exact Hrow |].
      cbn [snd rows set_rows]. now rewrite lookup_delete_ne.
Qed.

Lemma published_rows_stay_witness :
  rows (snd (PublicationService.deletePublication Sample.service "p1"
               (Sample.world PUBLISHED (Some "Publicado")))) !! "p1"
  = Some (Sample.publication PUBLISHED (Some "Publicado")).
Proof.
  apply (published_rows_stay Sample.service "p1"
           (Sample.world PUBLISHED (Some "Publicado"))
           (Sample.publication PUBLISHED (Some "Publicado"))).
  - reflexivity.
  - reflexivity.
Defined.

(** Reading a stored publication always succeeds and never writes.  The
    publication part of the answer is the stored row; the author part is
    what [getAuthor] returns when the author is asked for and the row has
    an author id, and absent otherwise, so an unreachable authors service
    costs the author part only. *)
Theorem getPublicationById_stored
        (this : PublicationService.t) (id : string) (includeAuthor : bool)
        (w : World) (p : Publication.t) :
  rows w !! id = Some p ->
  exists (author : option AuthorData.t) (w' : World),
    PublicationService.getPublicationById this id includeAuthor w
    = (Return (PublicationWithAuthorDTO.mk (PublicationMapper.toDTO p) author), w')
    /\ rows w' = rows w
    /\ (includeAuthor = false \/ Publication.authorId p = "" ->
        author = None /\ w' = w)
    /\ (includeAuthor = true -> Publication.authorId p <> "" ->
        AuthorsServiceClient.getAuthor (PublicationService.authorsServiceClient this)
          (Publication.authorId p) w = (Return author, w'))
    /\ (always_fails w -> author = None).
Proof.
  intros Hrow. destruct (row_key_stored id w p Hrow) as [Hok Hkey].
  unfold PublicationService.getPublicationById, bind at 1,
    PublicationRepository.findById.
  rewrite Hok, Hkey, Hrow.
  destruct (includeAuthor && JS.truthy (Publication.authorId p)) eqn:Hask.
  - apply andb_true_iff in Hask. destruct Hask as [-> Htruthy].
    destruct (getAuthor_never_throws (PublicationService.authorsServiceClient this)
                (Publication.authorId p) w) as (a & w' & Hget).
    destruct (getAuthor_frame _ _ _ _ _ Hget) as (Hrows & _).
    exists a, w'. unfold bind. rewrite Hget.
    split; [destruct a as [[] |]; reflexivity |].
    split; [exact Hrows |]. split; [| split].
    + intros [Hno | Hempty]; [discriminate |].
      rewrite Hempty in Htruthy. discriminate.
    + intros _ _. reflexivity.
    + intros Hfails.
      destruct (retryRequest_always_fails (PublicationService.authorsServiceClient this)
                  ("/authors/" +:+ Publication.authorId p) _ 1 w Hfails eq_refl)
        as (e & w1 & Hretry & _).
      unfold AuthorsServiceClient.getAuthor, try_catch, bind in Hget.
      rewrite Hretry in Hget. now injection Hget as <- _.
  - exists None, w. split; [reflexivity |]. split; [reflexivity |].
    split; [intros _; split; reflexivity |]. split; [| intros _; reflexivity].
    intros -> Hid. cbn [andb] in Hask.
    destruct (Publication.authorId p); [contradiction | discriminate].
Qed.

Lemma getPublicationById_stored_witness :
  exists (author : option AuthorData.t) (w' : World),
    PublicationService.getPublicationById Sample.service "p1" true
      (Sample.world DRAFT None)
    = (Return (PublicationWithAuthorDTO.mk
                 (PublicationMapper.toDTO (Sample.publication DRAFT None)) author),
       w')
    /\ rows w' = rows (Sample.world DRAFT None)
    /\ author = None.
Proof.
  destruct (getPublicationById_stored Sample.service "p1" true
              (Sample.world DRAFT None) (Sample.publication DRAFT None))
    as (author & w' & Hrun & Hrows & _ & _ & Hdown).
  - reflexivity.
  - exists author, w'. split; [exact Hrun |]. split; [exact Hrows |].
    apply Hdown. intros k url. reflexivity.
Defined.

(** *** How the operations compose *)







(** *** What the service keeps *)

Lemma same_fixed_columns_refl (p : Publication.t) : same_fixed_columns p p.
Proof. repeat split. Qed.

(** The table after a status change, an edit or a deletion: unchanged, or
    with one row replaced by a row that keeps the fixed columns, or with
    one row removed. *)
Lemma changePublicationStatus_rows
      (this : PublicationService.t) (id : string)
      (dto : ChangePublicationStatusDTO.t) (w : World) :
  rows (snd (PublicationService.changePublicationStatus this id dto w)) = rows w
  \/ exists (key : string) (p p' : Publication.t),
      rows w !! key = Some p /\ same_fixed_columns p p'
      /\ rows (snd (PublicationService.changePublicationStatus this id dto w))
         = <[key := p']> (rows w).
Proof.
  rewrite changePublicationStatus_reaches.
  destruct (PublicationRepository.id_ok id w); [| now left].
  destruct (rows w !! PublicationRepository.row_key id w) as [p |] eqn:Hrow;
    [| now left].
  destruct (StateValidators.validateTransition _ _) as [[] | e]; [| now left].
  destruct (Publication.canTransitionToStatus _ _); [| now left].
  right. exists (PublicationRepository.row_key id w), p,
           (updated_row (ChangePublicationStatusDTO.status dto)
              (ChangePublicationStatusDTO.reviewNotes dto) (clock w) p).
  split; [exact Hrow |]. split; [| reflexivity].
  rewrite updated_row_fields. repeat split.
Qed.

Lemma updatePublication_rows
      (this : PublicationService.t) (id : string)
      (dto : UpdatePublicationDTO.t) (w : World) :
  rows (snd (PublicationService.updatePublication this id dto w)) = rows w
  \/ exists (key : string) (p p' : Publication.t),
      rows w !! key = Some p /\ Publication.id p' = Publication.id p
      /\ rows (snd (PublicationService.updatePublication this id dto w))
         = <[key := p']> (rows w).
Proof.
  rewrite updatePublication_reaches.
  destruct (PublicationRepository.id_ok id w); [| now left].
  destruct (rows w !! PublicationRepository.row_key id w) as [p |] eqn:Hrow;
    [| now left].
  destruct (Publication.canBeEdited p); [| now left].
  destruct (Postgres.varchar_ok_opt _ _); [| now left].
  right. exists (PublicationRepository.row_key id w), p, (edited_row dto (clock w) p).
  split; [exact Hrow |]. split; reflexivity.
Qed.

Lemma deletePublication_rows (this : PublicationService.t) (id : string) (w : World) :
  rows (snd (PublicationService.deletePublication this id w)) = rows w
  \/ exists key : string,
      rows (snd (PublicationService.deletePublication this id w)) = delete key (rows w).
Proof.
  rewrite deletePublication_reaches.
  destruct (PublicationRepository.id_ok id w); [| now left].
  destruct (rows w !! PublicationRepository.row_key id w) as [p |]; [| now left].
  destruct (bool_decide _); [now left | right; eexists; reflexivity].
Qed.

Lemma createPublication_rows
      (this : PublicationService.t) (dto : CreatePublicationDTO.t) (w : World) :
  rows (snd (PublicationService.createPublication this dto w)) = rows w
  \/ exists row : Publication.t,
      Publication.id row = uuid_gen w (inserted w)
      /\ rows (snd (PublicationService.createPublication this dto w))
         = <[Publication.id row := row]> (rows w).
Proof.
  rewrite createPublication_cases.
  destruct (_ || _); [now left |].
  destruct (AuthorsServiceClient.authorExists _ _ w) as [[[] | e] w1] eqn:Hexists;
    destruct (authorExists_frame _ _ _ _ _ Hexists) as (Hr1 & Hu1 & Hi1);
    [| now left | now left].
  destruct (AuthorsServiceClient.getAuthor _ _ w1) as [[a | e] w2] eqn:Hfetch;
    destruct (getAuthor_frame _ _ _ _ _ Hfetch) as (Hr2 & Hu2 & Hi2);
    [| left; cbn [snd]; congruence].
  destruct (Postgres.columns_ok _); [| left; cbn [snd]; congruence].
  right. cbn [snd rows set_rows set_inserted]. rewrite Hr2, Hr1.
  exists (PublicationRepository.stored_row (new_entity dto a w2)).
  cbn [PublicationRepository.stored_row new_entity Publication.id].
  split; [congruence | reflexivity].
Qed.

(** No status change or deletion adds a row, and none alters the id, the
    creation time, the author columns, the review counter or the visible
    flag of a row: every row stored afterwards was stored before under the
    same key with the same values in these columns. *)
Theorem fixed_columns_kept
        (this : PublicationService.t) (id : string) (w : World)
        (k : string) (p' : Publication.t) :
  (forall dto,
      rows (snd (PublicationService.changePublicationStatus this id dto w)) !! k
      = Some p' ->
      exists p, rows w !! k = Some p /\ same_fixed_columns p p')
  /\ (rows (snd (PublicationService.deletePublication this id w)) !! k = Some p' ->
      rows w !! k = Some p').
Proof.
  split.
  - intros dto.
    destruct (changePublicationStatus_rows this id dto w)
      as [-> | (key & p & q & Hrow & Hsame & ->)].
    + intros H. exists p'. split; [exact H | apply same_fixed_columns_refl].
    + destruct (decide (key = k)) as [<- | Hne].
      * rewrite lookup_insert_eq. intros [= <-]. exists p. split; assumption.
      * rewrite lookup_insert_ne by assumption.
        intros H. exists p'. split; [exact H | apply same_fixed_columns_refl].
  - destruct (deletePublication_rows this id w) as [-> | [key ->]]; [trivial |].
    intros H. apply lookup_delete_Some in H. tauto.
Qed.

Lemma fixed_columns_kept_witness :
  exists p : Publication.t,
    rows (Sample.world DRAFT None) !! "p1" = Some p
    /\ same_fixed_columns p
         (Publication.mk "p1" "Machine Learning Fundamentals" "Contenido" IN_REVIEW
            1000 5000 "a1" (Some "Ada Lovelace") (Some "ada@example.org")
            (Some "") (Some []) 0 (Some "Enviado") true).
Proof.
  apply (fixed_columns_kept Sample.service "p1" (Sample.world DRAFT None) "p1"
           (Publication.mk "p1" "Machine Learning Fundamentals" "Contenido" IN_REVIEW
              1000 5000 "a1" (Some "Ada Lovelace") (Some "ada@example.org")
              (Some "") (Some []) 0 (Some "Enviado") true))
    with (dto := Sample.request IN_REVIEW (Some "Enviado")).
  vm_compute. reflexivity.
Defined.

(** Every row is stored under its own id, and the service keeps it so:
    when the table has this property, it has it after a creation, a status
    change, an edit or a deletion, whether these succeed or fail. *)
Theorem keyed_kept (this : PublicationService.t) (w : World) :
  keyed (rows w) ->
  (forall dto,
      keyed (rows (snd (PublicationService.createPublication this dto w))))
  /\ (forall id dto,
         keyed (rows (snd (PublicationService.changePublicationStatus this id dto w))))
  /\ (forall id dto,
         keyed (rows (snd (PublicationService.updatePublication this id dto w))))
  /\ (forall id,
         keyed (rows (snd (PublicationService.deletePublication this id w)))).
Proof.
  intros Hkeyed. split; [| split; [| split]].
  - intros dto. destruct (createPublication_rows this dto w)
      as [-> | (row & _ & ->)]; [exact Hkeyed |].
    intros k p. destruct (decide (Publication.id row = k)) as [<- | Hne].
    + rewrite lookup_insert_eq. now intros [= <-].
    + rewrite lookup_insert_ne by assumption. apply Hkeyed.
  - intros id dto. destruct (changePublicationStatus_rows this id dto w)
      as [-> | (key & p & q & Hrow & Hsame & ->)]; [exact Hkeyed |].
    intros k r. destruct (decide (key = k)) as [<- | Hne].
    + rewrite lookup_insert_eq. intros [= <-].
      destruct Hsame as (-> & _). now apply Hkeyed.
    + rewrite lookup_insert_ne by assumption. apply Hkeyed.
  - intros id dto. destruct (updatePublication_rows this id dto w)
      as [-> | (key & p & q & Hrow & Hsame & ->)]; [exact Hkeyed |].
    intros k r. destruct (decide (key = k)) as [<- | Hne].
    + rewrite lookup_insert_eq. intros [= <-].
      rewrite Hsame. now apply Hkeyed.
    + rewrite lookup_insert_ne by assumption. apply Hkeyed.
  - intros id. destruct (deletePublication_rows this id w) as [-> | [key ->]];
      [exact Hkeyed |].
    intros k r H. apply lookup_delete_Some in H. apply Hkeyed. tauto.
Qed.

Lemma keyed_kept_witness :
  keyed (rows (snd (PublicationService.createPublication Sample.service
                      Sample.submission
                      (Sample.world_with DRAFT None Sample.present)))).
Proof.
  apply (keyed_kept Sample.service (Sample.world_with DRAFT None Sample.present)).
  intros k p. cbn [rows Sample.world_with].
  intros H. apply lookup_singleton_Some in H. destruct H as [<- <-]. reflexivity.
Defined.
